(** * A shallow embedding of [bot.py]: the transaction ledger of a chat bot

    The program keeps two SQL tables ([users], [transactions]), a
    process-wide dictionary [user_totals_cache], one pickled forecast model
    ([model.pkl]) and talks to its users through a chat platform.  Every
    Python function that the ledger properties depend on is translated below
    into a function over an explicit [world]: the tables, the cache, the model
    file, the clock, the error log and the messages sent so far.  Exceptions
    are values of [result]; the places where SQLite may fail (opening the
    connection, running the statement, committing) are driven by a plan of
    [faults] that the world carries, one entry per [with Database()] block. *)

From Stdlib Require Import String Ascii ZArith QArith List Sorted Lia.
From Stdlib Require Import Floats.
From Stdlib Require OrderedTypeEx.
From stdpp Require Import base gmap strings list.

Local Open Scope string_scope.
Local Open Scope list_scope.
Local Open Scope Z_scope.

(** ** Constants (bot.py, lines 16-20) *)

Definition MAX_MSG_LEN : nat := 4096.
Definition TRANSACTION_THRESHOLD : Q := 1000 # 1.

(** ** Data model *)

(** One row of [transactions].  Amounts are Python floats; a row holds the
    rational its amount stands for, and the tables add exactly.  What depends
    on the rounding of doubles is stated on doubles: see [sum_double]. *)
Record txn := Txn {
  txn_id : Z;
  txn_amount : Q;
  txn_date : string;
  txn_category : string;
  txn_chat_id : Z
}.

(** Modelled from the spec: the schema is created outside [bot.py]; its
    layout is [users(chat_id PK, role)] and
    [transactions(id PK autoincrement, amount, date, category, chat_id)].
    The primary key of [users] makes the table a finite map from [chat_id];
    [transactions] is the list of its rows in rowid order. *)
Record tables := Tables {
  users : gmap Z string;
  transactions : list txn;
  last_rowid : Z
}.

(** The fitted regression is opaque: a model is identified by the series it
    was fitted on, and a prediction by the model and the ordinal it is asked
    about. *)
Record model := Fitted {
  fit_dates : list Z;
  fit_amounts : list Q
}.

Inductive prediction := Predict (m : model) (ordinal : Z).

(** Where one [with Database()] block fails. *)
Record faults := Faults {
  connect_fails : bool;
  execute_fails : bool;
  commit_fails : bool
}.

Definition no_faults : faults := Faults false false false.

(** Text handed to the chat platform.  The reply built by the f-string of
    [handle_message] keeps its two numbers instead of their rendering. *)
Inductive text :=
  | Plain (s : string)
  | AmountAdded (amount total : Q).

(** A file handed to [send_document] or [send_photo].  A graph holds the
    lines of the figure, each with its dates and its totals. *)
Inductive attachment :=
  | Csv (rows : list txn)
  | Graph (lines : list (list string * list Q)).

Record world := World {
  db : tables;
  user_totals_cache : gmap Z Q;
  model_pkl : option model;
  today : string;
  plan : list faults;
  send_fails : Z -> string -> bool;
  errors : list string;
  replies : list (Z * text);
  sent : list (Z * string);
  files : list (Z * attachment)
}.

Definition set_db (t : tables) (w : world) : world :=
  World t (user_totals_cache w) (model_pkl w) (today w) (plan w)
        (send_fails w) (errors w) (replies w) (sent w) (files w).
Definition set_cache (c : gmap Z Q) (w : world) : world :=
  World (db w) c (model_pkl w) (today w) (plan w)
        (send_fails w) (errors w) (replies w) (sent w) (files w).
Definition set_model_pkl (m : option model) (w : world) : world :=
  World (db w) (user_totals_cache w) m (today w) (plan w)
        (send_fails w) (errors w) (replies w) (sent w) (files w).
Definition set_plan (p : list faults) (w : world) : world :=
  World (db w) (user_totals_cache w) (model_pkl w) (today w) p
        (send_fails w) (errors w) (replies w) (sent w) (files w).
Definition set_errors (l : list string) (w : world) : world :=
  World (db w) (user_totals_cache w) (model_pkl w) (today w) (plan w)
        (send_fails w) l (replies w) (sent w) (files w).
Definition set_replies (l : list (Z * text)) (w : world) : world :=
  World (db w) (user_totals_cache w) (model_pkl w) (today w) (plan w)
        (send_fails w) (errors w) l (sent w) (files w).
Definition set_sent (l : list (Z * string)) (w : world) : world :=
  World (db w) (user_totals_cache w) (model_pkl w) (today w) (plan w)
        (send_fails w) (errors w) (replies w) l (files w).
Definition set_files (l : list (Z * attachment)) (w : world) : world :=
  World (db w) (user_totals_cache w) (model_pkl w) (today w) (plan w)
        (send_fails w) (errors w) (replies w) (sent w) l.

(** ** Exceptions and the state monad of the program *)

Inductive exn :=
  | SqliteError
  | AttributeError
  | NameError
  | FileNotFoundError
  | ValueError.

Inductive result (A : Type) :=
  | Ret (a : A)
  | Raise (e : exn).
Arguments Ret {A} a.
Arguments Raise {A} e.

Definition M (A : Type) : Type := world -> result A * world.

Definition ret {A} (a : A) : M A := fun w => (Ret a, w).
Definition raise {A} (e : exn) : M A := fun w => (Raise e, w).
Definition bind {A B} (c : M A) (k : A -> M B) : M B := fun w =>
  match c w with
  | (Ret a, w1) => k a w1
  | (Raise e, w1) => (Raise e, w1)
  end.
Definition gets {A} (f : world -> A) : M A := fun w => (Ret (f w), w).
Definition modify (f : world -> world) : M unit := fun w => (Ret tt, f w).

Notation "'let*' x ':=' c 'in' k" := (bind c (fun x => k))
  (at level 10, x name, c at level 100, k at level 200).
Notation "c '>>' k" := (bind c (fun _ => k))
  (at level 62, right associativity).

(** [logger.error(...)] *)
Definition logger_error (msg : string) : M unit :=
  modify (fun w => set_errors (errors w ++ [msg]) w).

(** ** Python library functions the program calls

    A [str] is modelled as a [string] over the code points 0..255. *)

Definition code (c : ascii) : N := N_of_ascii c.

(** [c.isspace()] on code points below 256. *)
Definition is_space (c : ascii) : bool :=
  let n := code c in
  ((9 <=? n) && (n <=? 13) || (28 <=? n) && (n <=? 32)
   || (n =? 133) || (n =? 160))%N.

(** [\d] on code points below 256. *)
Definition is_digit (c : ascii) : bool :=
  let n := code c in ((48 <=? n) && (n <=? 57))%N.

Fixpoint lstrip (s : string) : string :=
  match s with
  | EmptyString => EmptyString
  | String c r => if is_space c then lstrip r else s
  end.

Fixpoint rstrip (s : string) : string :=
  match s with
  | EmptyString => EmptyString
  | String c r =>
      match rstrip r with
      | EmptyString => if is_space c then EmptyString else String c EmptyString
      | r' => String c r'
      end
  end.

(** [s.strip()] *)
Definition strip (s : string) : string := rstrip (lstrip s).

(** The longest prefix of digits, and what follows it. *)
Fixpoint span_digits (s : string) : string * string :=
  match s with
  | EmptyString => (EmptyString, EmptyString)
  | String c r =>
      if is_digit c then
        let '(ds, rest) := span_digits r in (String c ds, rest)
      else (EmptyString, s)
  end.

(** [[+-]?] *)
Definition opt_sign (s : string) : string * string :=
  match s with
  | String "+" r => ("+", r)
  | String "-" r => ("-", r)
  | _ => (EmptyString, s)
  end.

(** [$] without [re.MULTILINE]: the end of the string, or just before a
    newline that ends it. *)
Definition at_end (s : string) : bool :=
  match s with
  | EmptyString => true
  | String c EmptyString => (code c =? 10)%N
  | _ => false
  end.

(** [re.match(r'^[+-]?\d+(\.\d+)?$', s)]: [Some] of [match.group()], or
    [None].  The character classes of the pattern are disjoint, so the greedy
    reading is the only one that can succeed. *)
Definition re_match_number (s : string) : option string :=
  let '(sg, s1) := opt_sign s in
  let '(ds, s2) := span_digits s1 in
  match ds with
  | EmptyString => None
  | _ =>
      match s2 with
      | String "." s3 =>
          let '(fs, s4) := span_digits s3 in
          match fs with
          | EmptyString => None
          | _ => if at_end s4 then Some (sg +:+ ds +:+ "." +:+ fs) else None
          end
      | _ => if at_end s2 then Some (sg +:+ ds) else None
      end
  end.

Definition digit_value (c : ascii) : Z := Z.of_N (code c) - 48.

Fixpoint digits_value (acc : Z) (s : string) : Z :=
  match s with
  | EmptyString => acc
  | String c r => digits_value (10 * acc + digit_value c) r
  end.

(** [float(s)] on a text matched by the pattern above, as an exact decimal. *)
Definition float (s : string) : Q :=
  let '(sg, s1) := opt_sign s in
  let '(ds, s2) := span_digits s1 in
  let fs := match s2 with
            | String "." s3 => fst (span_digits s3)
            | _ => EmptyString
            end in
  let q := digits_value 0 (ds +:+ fs) # Z.to_pos (10 ^ Z.of_nat (String.length fs)) in
  if String.eqb sg "-" then Qopp q else q.

(** [s.replace("\\n", "\n")]: every backslash followed by [n] becomes one
    newline, left to right. *)
Fixpoint replace_backslash_n (s : string) : string :=
  match s with
  | EmptyString => EmptyString
  | String c r =>
      match r with
      | String "n" r' =>
          if (code c =? 92)%N then String "010" (replace_backslash_n r')
          else String c (replace_backslash_n r)
      | _ => String c (replace_backslash_n r)
      end
  end.

(** [range(start, stop, step)] for a positive step. *)
Definition range (start stop step : nat) : list nat :=
  map (fun k => (start + k * step)%nat)
      (seq 0 ((stop - start + step - 1) / step)).

(** [s[i:j]] for [0 <= i <= j]. *)
Definition slice (s : string) (i j : nat) : string := substring i (j - i) s.

(** *** [datetime.strptime(s, "%Y-%m-%d").toordinal()] *)

Definition digit_in (lo hi : Z) (c : ascii) : option Z :=
  let v := digit_value c in
  if is_digit c && (lo <=? v) && (v <=? hi) then Some v else None.

Definition or_else {A} (x y : option A) : option A :=
  match x with Some _ => x | None => y end.

(** [%Y]: four digits. *)
Definition parse_year (s : string) : option (Z * string) :=
  match s with
  | String a (String b (String c (String d r))) =>
      if is_digit a && is_digit b && is_digit c && is_digit d then
        Some (digits_value 0 (String a (String b (String c (String d EmptyString)))), r)
      else None
  | _ => None
  end.

(** Two characters: the first one given, the second a digit in a range. *)
Definition two_chars (first : ascii) (tens lo hi : Z) (s : string) : option (Z * string) :=
  match s with
  | String a (String b r) =>
      if Ascii.eqb a first then
        match digit_in lo hi b with
        | Some v => Some (tens + v, r)
        | None => None
        end
      else None
  | _ => None
  end.

Definition one_char (s : string) : option (Z * string) :=
  match s with
  | String a r =>
      match digit_in 1 9 a with
      | Some v => Some (v, r)
      | None => None
      end
  | _ => None
  end.

(** [%m]: [1[0-2]|0[1-9]|[1-9]] *)
Definition parse_month (s : string) : option (Z * string) :=
  or_else (two_chars "1" 10 0 2 s)
  (or_else (two_chars "0" 0 1 9 s) (one_char s)).

(** [%d]: [3[01]|[12]\d|0[1-9]|[1-9]| [1-9]] *)
Definition parse_day (s : string) : option (Z * string) :=
  or_else (two_chars "3" 30 0 1 s)
  (or_else (two_chars "1" 10 0 9 s)
  (or_else (two_chars "2" 20 0 9 s)
  (or_else (two_chars "0" 0 1 9 s)
  (or_else (one_char s) (two_chars " " 0 1 9 s))))).

Definition expect_dash (s : string) : option string :=
  match s with
  | String "-" r => Some r
  | _ => None
  end.

Definition is_leap (y : Z) : bool :=
  (y mod 4 =? 0) && (negb (y mod 100 =? 0) || (y mod 400 =? 0)).

Definition days_in_month (y m : Z) : Z :=
  if m =? 2 then (if is_leap y then 29 else 28)
  else if (m =? 4) || (m =? 6) || (m =? 9) || (m =? 11) then 30
  else 31.

Definition days_before_year (y : Z) : Z :=
  let p := y - 1 in p * 365 + p / 4 - p / 100 + p / 400.

Fixpoint days_before_month_aux (y : Z) (k : nat) : Z :=
  match k with
  | O => 0
  | S k' => days_before_month_aux y k' + days_in_month y (Z.of_nat k)
  end.

Definition days_before_month (y m : Z) : Z :=
  days_before_month_aux y (Z.to_nat (m - 1)).

(** [None] stands for the [ValueError] of a text that is not a date. *)
Definition strptime_toordinal (s : string) : option Z :=
  match parse_year s with
  | Some (y, s1) =>
    match expect_dash s1 with
    | Some s2 =>
      match parse_month s2 with
      | Some (m, s3) =>
        match expect_dash s3 with
        | Some s4 =>
          match parse_day s4 with
          | Some (d, EmptyString) =>
              if (1 <=? y) && (d <=? days_in_month y m) then
                Some (days_before_year y + days_before_month y m + d)
              else None
          | _ => None
          end
        | None => None
        end
      | None => None
      end
    | None => None
    end
  | None => None
  end.

(** ** SQL statements, as functions on the tables *)

(** [INSERT OR IGNORE INTO users (chat_id, role) VALUES (?, ?)] *)
Definition insert_or_ignore_user (chat_id : Z) (role : string)
    (t : tables) : tables * unit :=
  match users t !! chat_id with
  | Some _ => (t, tt)
  | None => (Tables (<[chat_id := role]> (users t)) (transactions t) (last_rowid t), tt)
  end.

(** [INSERT INTO transactions (amount, date, category, chat_id) VALUES (?, ?, ?, ?)] *)
Definition insert_transaction (amount : Q) (date category : string) (chat_id : Z)
    (t : tables) : tables * unit :=
  let rowid := last_rowid t + 1 in
  (Tables (users t)
          (transactions t ++ [Txn rowid amount date category chat_id])
          rowid, tt).

(** [SELECT * FROM transactions WHERE chat_id = ?] *)
Definition select_transactions (chat_id : Z) (t : tables) : tables * list txn :=
  (t, filter (fun r => txn_chat_id r = chat_id) (transactions t)).

(** SQL [SUM]: [NULL] over no rows, otherwise the sum in row order. *)
Definition sql_sum (amounts : list Q) : option Q :=
  match amounts with
  | [] => None
  | _ => Some (fold_left Qplus amounts (0 # 1))
  end.

(** [SELECT SUM(amount) FROM transactions WHERE chat_id = ?] *)
Definition select_sum (chat_id : Z) (t : tables) : tables * option Q :=
  (t, sql_sum (map txn_amount (snd (select_transactions chat_id t)))).

(** [DELETE FROM transactions WHERE chat_id = ?] *)
Definition delete_transactions (chat_id : Z) (t : tables) : tables * unit :=
  (Tables (users t)
          (filter (fun r => txn_chat_id r <> chat_id) (transactions t))
          (last_rowid t), tt).

(** [SELECT chat_id FROM users] *)
Definition select_user_ids (t : tables) : tables * list Z :=
  (t, map fst (map_to_list (users t))).

(** [GROUP BY date] with [SUM(amount)].  SQLite groups by sorting on the
    key, so the groups come out in ascending order of the date text (the
    [BINARY] collation, which [String.compare] is on these strings). *)
Fixpoint group_insert (d : string) (a : Q) (acc : list (string * Q))
    : list (string * Q) :=
  match acc with
  | [] => [(d, Qplus (0 # 1) a)]
  | (d', total) :: rest =>
      match String.compare d d' with
      | Lt => (d, Qplus (0 # 1) a) :: acc
      | Eq => (d', Qplus total a) :: rest
      | Gt => (d', total) :: group_insert d a rest
      end
  end.

Definition group_by_date (rows : list txn) : list (string * Q) :=
  fold_left (fun acc r => group_insert (txn_date r) (txn_amount r) acc) rows [].

(** [SELECT date, SUM(amount) FROM transactions GROUP BY date] *)
Definition select_date_sums (t : tables) : tables * list (string * Q) :=
  (t, group_by_date (transactions t)).

(** [SELECT date, SUM(amount) FROM transactions WHERE chat_id = ? GROUP BY date] *)
Definition select_date_sums_of (chat_id : Z) (t : tables)
    : tables * list (string * Q) :=
  (t, group_by_date (snd (select_transactions chat_id t))).

(** *** The aggregate at any arithmetic

    The amounts the handlers store are Python floats, and SQLite adds
    doubles; the tables above hold the rational each amount stands for and
    add exactly.  The grouping does not depend on that choice: here it is
    for any aggregate function over any type of values. *)

(** An SQL aggregate function: its accumulator before the first row, the
    step for one more row, and the value it returns. *)
Record aggregate (A : Type) := Aggregate {
  agg_state : Type;
  agg_init : agg_state;
  agg_step : agg_state -> A -> agg_state;
  agg_final : agg_state -> A
}.
Arguments Aggregate {A} agg_state agg_init agg_step agg_final.
Arguments agg_state {A} a.
Arguments agg_init {A} a.
Arguments agg_step {A} a.
Arguments agg_final {A} a.

(** What the aggregate returns for the values of one group. *)
Definition aggregate_of {A} (g : aggregate A) (values : list A) : A :=
  agg_final g (fold_left (agg_step g) values (agg_init g)).

Fixpoint group_insert_with {A} (g : aggregate A) (d : string) (a : A)
    (acc : list (string * agg_state g)) : list (string * agg_state g) :=
  match acc with
  | [] => [(d, agg_step g (agg_init g) a)]
  | (d', s) :: rest =>
      match String.compare d d' with
      | Lt => (d, agg_step g (agg_init g) a) :: acc
      | Eq => (d', agg_step g s a) :: rest
      | Gt => (d', s) :: group_insert_with g d a rest
      end
  end.

(** The accumulators of the groups after the rows. *)
Definition groups_with {A} (g : aggregate A) (rows : list (string * A))
    : list (string * agg_state g) :=
  fold_left (fun acc r => group_insert_with g (fst r) (snd r) acc) rows [].

(** [SELECT date, AGG(amount) FROM rows GROUP BY date] *)
Definition group_by_date_with {A} (g : aggregate A) (rows : list (string * A))
    : list (string * A) :=
  map (fun p => (fst p, agg_final g (snd p))) (groups_with g rows).

(** The accumulator of one date among the groups. *)
Fixpoint group_of {S} (d : string) (acc : list (string * S)) : option S :=
  match acc with
  | [] => None
  | (d', s) :: rest => if String.eqb d d' then Some s else group_of d rest
  end.

(** The values of the rows of one date, in row order. *)
Definition values_on {A} (d : string) (rows : list (string * A)) : list A :=
  map snd (filter (fun r => fst r = d) rows).

(** [SUM] as [group_by_date] computes it, on exact amounts. *)
Definition sum_Q : aggregate Q := Aggregate Q (0 # 1) Qplus (fun s => s).

(** The two columns of a row that the query reads. *)
Definition date_amount (r : txn) : string * Q := (txn_date r, txn_amount r).

(** *** The aggregate on doubles *)








(** ** The [Database] context manager (bot.py, lines 32-46) *)

(** What [__enter__] hands to the block: the failures of this connection and
    the committed content the file falls back to when the commit fails. *)
Record cursor := Cursor {
  cur_faults : faults;
  cur_committed : tables
}.

Definition next_faults : M faults := fun w =>
  match plan w with
  | [] => (Ret no_faults, w)
  | f :: rest => (Ret f, set_plan rest w)
  end.

(** [__enter__]: a failed [sqlite3.connect] is logged; [self.cursor] was never
    assigned, so returning it raises [AttributeError]. *)
Definition Database_enter : M cursor :=
  let* f := next_faults in
  if connect_fails f then
    logger_error "Error connecting to database" >> raise AttributeError
  else
    let* t := gets db in ret (Cursor f t).

(** [__exit__]: a failed commit is logged and swallowed, and [close()], which
    comes after it in the [try], is skipped.  The pending changes of the
    connection are never seen by another connection and are rolled back when
    the connection is collected, so the tables are the committed ones; the
    log keeps the fixed part of the message.  For as long as the cursor is
    referenced the connection stays open: see [still_open]. *)
Definition Database_exit (cur : cursor) : M unit :=
  if commit_fails (cur_faults cur) then
    modify (set_db (cur_committed cur)) >>
    logger_error "Error closing database connection"
  else ret tt.

(** [with Database() as db: body].  [__exit__] returns [None], so an
    exception of the body is re-raised after it ran. *)
Definition with_Database {A} (body : cursor -> M A) : M A := fun w =>
  match Database_enter w with
  | (Raise e, w1) => (Raise e, w1)
  | (Ret cur, w1) =>
      let '(r, w2) := body cur w1 in
      (r, snd (Database_exit cur w2))
  end.

(** [db.execute(stmt)], with the fetch that follows it. *)
Definition db_execute {A} (cur : cursor) (stmt : tables -> tables * A) : M A :=
  fun w =>
    if execute_fails (cur_faults cur) then (Raise SqliteError, w)
    else let '(t, a) := stmt (db w) in (Ret a, set_db t w).

(** Whether the connection of a cursor is open after its block: [__exit__]
    closes it unless the commit raised. *)
Definition still_open (db : cursor) : bool := commit_fails (cur_faults db).

(** What [c] does while the connection of a failed commit is still open.  That
    connection keeps its lock on the file, so the statement of the next
    connection fails: the failure is put in front of the plan, and taken off
    again when [c] opened no connection. *)
Definition under_lock {A} (c : M A) : M A := fun w =>
  let '(r, w1) := c (set_plan (Faults false true false :: plan w) w) in
  (r, if (length (plan w) <? length (plan w1))%nat then set_plan (plan w) w1
      else w1).

(** ** Utility functions (bot.py, lines 49-68) *)

Definition add_user (chat_id : Z) (role : string) : M unit :=
  with_Database (fun db => db_execute db (insert_or_ignore_user chat_id role)).

(** [user_totals_cache[chat_id] = total] *)
Definition cache_store (chat_id : Z) (total : Q) : M unit :=
  modify (fun w => set_cache (<[chat_id := total]> (user_totals_cache w)) w).

(** [x or 0] on the result of [fetchone()[0]]: [None] and a zero are falsy. *)
Definition or_zero (x : option Q) : Q :=
  match x with
  | None => 0 # 1
  | Some q => if Qeq_bool q (0 # 1) then 0 # 1 else q
  end.

Definition get_total (chat_id : Z) : M Q :=
  let* cache := gets user_totals_cache in
  match cache !! chat_id with
  | Some total => ret total
  | None =>
      with_Database (fun db =>
        let* s := db_execute db (select_sum chat_id) in
        let total := or_zero s in
        cache_store chat_id total >>
        ret total)
  end.

(** The cursor [db] of the block is a local variable: it is referenced until
    the function returns, so [get_total] runs while its connection may still
    be open. *)
Definition save_transaction (chat_id : Z) (amount : Q) (category : string) : M unit :=
  let* date := gets today in
  let* db := with_Database (fun db =>
               db_execute db (insert_transaction amount date category chat_id) >>
               ret db) in
  let* total := (if still_open db then under_lock (get_total chat_id)
                 else get_total chat_id) in
  cache_store chat_id total.

(** ** The forecast (bot.py, lines 70-88) *)

(** A list comprehension whose element expression may raise. *)
Fixpoint for_each {A B} (f : A -> M B) (l : list A) : M (list B) :=
  match l with
  | [] => ret []
  | x :: rest =>
      let* y := f x in
      let* ys := for_each f rest in
      ret (y :: ys)
  end.

Definition toordinal (date_str : string) : M Z :=
  match strptime_toordinal date_str with
  | Some n => ret n
  | None => raise ValueError
  end.

Definition train_model : M unit :=
  let* rows := with_Database (fun db => db_execute db select_date_sums) in
  let* dates := for_each (fun row => toordinal (fst row)) rows in
  let amounts := map snd rows in
  if (1 <? length dates)%nat then
    modify (set_model_pkl (Some (Fitted dates amounts)))
  else ret tt.

Definition predict_future (date_str : string) : M prediction :=
  let* file := gets model_pkl in
  match file with
  | None => raise FileNotFoundError
  | Some m =>
      let* future_date := toordinal date_str in
      ret (Predict m future_date)
  end.

(** ** Notifications (bot.py, lines 90-98)

    Both functions use a global [bot] that the module never binds: reaching
    [bot.send_message] raises [NameError]. *)

Definition notify_group (chat_id : Z) (amount : Q) : M unit :=
  raise NameError.

Definition notify_admin_if_threshold_exceeded (chat_id : Z) (amount : Q) : M unit :=
  if negb (Qle_bool amount TRANSACTION_THRESHOLD) then raise NameError
  else ret tt.

(** ** Handlers (bot.py, lines 125-222) *)

(** The part of an [Update] the handlers read. *)
Record update := Update {
  message_chat_id : Z;
  message_text : string
}.

(** [update.message.reply_text(t)] *)
Definition reply_text (u : update) (t : text) : M unit :=
  modify (fun w => set_replies (replies w ++ [(message_chat_id u, t)]) w).

Definition clear_cache (u : update) : M unit :=
  modify (set_cache ∅) >>
  reply_text u (Plain "Cache cleared.").


(** The lines of pyplot's current figure.  The module never opens, clears
    or closes a figure, so [plt.plot] keeps adding to the one figure of the
    process: its lines are those of the last graph that was saved. *)
Definition current_figure (w : world) : list (list string * list Q) :=
  fold_left (fun lines f => match snd f with
                            | Graph ls => ls
                            | Csv _ => lines
                            end) (files w) [].

(** [plt.plot(dates, totals)] adds one line to the current figure; the
    picture saved and sent shows all of its lines. *)
Definition send_graph (u : update) : M unit :=
  let user_id := message_chat_id u in
  let* rows := with_Database (fun db =>
                 db_execute db (select_date_sums_of user_id)) in
  match rows with
  | [] => reply_text u (Plain "No transactions found.")
  | _ =>
      modify (fun w =>
        set_files (files w ++
                   [(user_id,
                     Graph (current_figure w ++ [(map fst rows, map snd rows)]))])
                  w)
  end.

Definition reset_transactions (u : update) : M unit :=
  let user_id := message_chat_id u in
  with_Database (fun db => db_execute db (delete_transactions user_id)) >>
  reply_text u (Plain "All your transactions have been reset.").

(** [[message[i:i + MAX_MSG_LEN] for i in range(0, len(message), MAX_MSG_LEN)]] *)
Definition chunks (message : string) : list string :=
  map (fun i => slice message i (i + MAX_MSG_LEN))
      (range 0 (String.length message) MAX_MSG_LEN).

(** One turn of the inner loop: the call is made; when the platform refuses
    it the exception is logged and the loop goes on. *)
Definition send_chunk (chat_id : Z) (chunk : string) : M unit := fun w =>
  let w1 := set_sent (sent w ++ [(chat_id, chunk)]) w in
  if send_fails w chat_id chunk then logger_error "Error sending message" w1
  else (Ret tt, w1).

Definition broadcast_message (u : update) (args : list string) : M unit :=
  match args with
  | [] => reply_text u (Plain "Please provide a message to broadcast.")
  | _ :: _ =>
      let message := replace_backslash_n (String.concat " " args) in
      let* users := with_Database (fun db => db_execute db select_user_ids) in
      for_each (fun user =>
        for_each (fun chunk => send_chunk user chunk) (chunks message)) users >>
      reply_text u (Plain "Broadcast sent.")
  end.

Definition handle_message (u : update) : M unit :=
  let text := strip (message_text u) in
  let chat_id := message_chat_id u in
  add_user chat_id "user" >>
  match re_match_number text with
  | Some group =>
      let amount := float group in
      save_transaction chat_id amount "general" >>
      let* total := get_total chat_id in
      reply_text u (AmountAdded amount total) >>
      notify_group chat_id amount >>
      notify_admin_if_threshold_exceeded chat_id amount
  | None =>
      reply_text u (Plain "Please send a valid number starting with + or -.")
  end.

(** ** The ledger operations, as the handlers perform them *)

(** The write path of [handle_message] (lines 208, 213 and 214): the user is
    ensured, the row is saved, and the total shown to the user is read back
    with [get_total]. *)
Definition add_transaction (chat_id : Z) (amount : Q) : M Q :=
  add_user chat_id "user" >>
  save_transaction chat_id amount "general" >>
  get_total chat_id.

(** The rows [export_transactions] reads (line 133). *)
Definition list_transactions (chat_id : Z) : M (list txn) :=
  with_Database (fun db => db_execute db (select_transactions chat_id)).

(** The series [train_model] reads (lines 71-73). *)
Definition date_aggregates : M (list (string * Q)) :=
  with_Database (fun db => db_execute db select_date_sums).

Inductive ledger_op :=
  | AddTransaction (chat_id : Z) (amount : Q)
  | GetTotal (chat_id : Z)
  | ResetForUser (chat_id : Z)
  | ClearCache
  | ListTransactions (chat_id : Z)
  | DateAggregates.

(** The world after one operation; what the operation returns is dropped. *)
Definition run_op (op : ledger_op) (w : world) : world :=
  match op with
  | AddTransaction c a => snd (add_transaction c a w)
  | GetTotal c => snd (get_total c w)
  | ResetForUser c => snd (reset_transactions (Update c "/reset") w)
  | ClearCache => snd (clear_cache (Update 0 "/clear_cache") w)
  | ListTransactions c => snd (list_transactions c w)
  | DateAggregates => snd (date_aggregates w)
  end.

Definition run_ops (ops : list ledger_op) (w : world) : world :=
  fold_left (fun w op => run_op op w) ops w.

(** A fresh process on an empty database: nothing cached, no model file, no
    failure planned. *)
Definition fresh (date : string) : world :=
  World (Tables ∅ [] 0) ∅ None date [] (fun _ _ => false) [] [] [] [].

Definition reachable (w : world) : Prop :=
  exists date ops, w = run_ops ops (fresh date).

(** [SumForUser]: the total of a user's rows, read from the table. *)
Definition sum_for_user (chat_id : Z) (t : tables) : Q :=
  or_zero (snd (select_sum chat_id t)).

(** Every cached total is the total of the rows in the table. *)
Definition cache_consistent (w : world) : Prop :=
  forall c v, user_totals_cache w !! c = Some v -> v == sum_for_user c (db w).

(** The arithmetic sum of a list of amounts. *)
Definition Qsum (l : list Q) : Q := fold_right Qplus (0 # 1) l.

(** The order of the date texts. *)
Definition date_lt (d1 d2 : string) : Prop := String.compare d1 d2 = Lt.

(** The amounts of the rows of one date, in row order. *)
Definition amounts_on (d : string) (rows : list txn) : list Q :=
  map txn_amount (filter (fun r => txn_date r = d) rows).

(** The dates present in the table, each once. *)
Definition distinct_dates (t : tables) : list string :=
  remove_dups (map txn_date (transactions t)).

(** The texts of the [send_message] calls made for one chat, in order. *)
Definition sent_to (chat_id : Z) (w : world) : list string :=
  map snd (filter (fun p => fst p = chat_id) (sent w)).

(** The text [broadcast_message] sends: the arguments joined by spaces, each
    backslash-n turned into a newline (line 175). *)
Definition broadcast_text (args : list string) : string :=
  replace_backslash_n (String.concat " " args).

(** The two characters of the pattern: a backslash and the letter n. *)
Definition backslash_n : string := String (ascii_of_N 92) (String "n" "").

(** The one character of the replacement. *)
Definition newline : string := String "010" "".

(** The pattern occurs in the text. *)
Definition occurs (pat s : string) : Prop := exists a b, s = a +:+ pat +:+ b.

(** What [s.replace("\\n", "\n")] returns, by [str.split] and [str.join]:
    the text is cut at the occurrences of the pattern into pieces that hold
    none, and the pieces are joined by newlines. *)
Definition replaces_backslash_n (s t : string) : Prop :=
  exists pieces,
    s = String.concat backslash_n pieces /\
    Forall (fun p => ~ occurs backslash_n p) pieces /\
    t = String.concat newline pieces.

(** The sum of the totals a series gives for one date. *)
Definition total_of (d : string) (series : list (string * Q)) : Q :=
  Qsum (map snd (filter (fun p => fst p = d) series)).




(** The statement runs and the commit fails. *)
Definition commit_fails_only : faults := Faults false false true.




(** Every character of the text satisfies the test. *)
Fixpoint string_forall (p : ascii -> bool) (s : string) : bool :=
  match s with
  | EmptyString => true
  | String c r => p c && string_forall p r
  end.

(** Two worlds with the same tables, cache, replies and model file. *)
Definition same_ledger (w w' : world) : Prop :=
  db w' = db w /\
  user_totals_cache w' = user_totals_cache w /\
  replies w' = replies w /\
  model_pkl w' = model_pkl w.

(** Every row belongs to a chat of the users table. *)
Definition owners_known (w : world) : Prop :=
  forall r, r ∈ transactions (db w) -> is_Some (users (db w) !! txn_chat_id r).

(** Unfolds one [with Database()] block down to the plan of the world. *)
Ltac run_block :=
  unfold with_Database, Database_enter, Database_exit, next_faults, db_execute,
    bind, gets, ret, raise, logger_error, modify, cache_store; simpl.

(** * Properties *)

(** ** Running totals and the cache

    [save_transaction] refreshes the cache entry with [get_total], and
    [get_total] answers from the cache whenever the entry exists.  After the
    first transaction of a user the entry exists, so later transactions leave
    it as it was.  The scenarios below run the code on the example of the
    specification: 100, then -30, for user 42. *)

(** C1: a sequence of AddTransaction calls for one user should return the
    running sums, and GetTotal the sum of all amounts.  On the code the first
    call returns 100; the second call, adding -30, returns 100 again and so
    does the following GetTotal, although the amounts sum to 70. *)
Theorem C1_second_add_returns_first_total :
  let w0 := fresh "2024-05-01" in
  let w1 := snd (add_transaction 42 (100 # 1) w0) in
  let w2 := snd (add_transaction 42 ((-30) # 1) w1) in
  fst (add_transaction 42 (100 # 1) w0) = Ret (100 # 1)%Q /\
  fst (add_transaction 42 ((-30) # 1) w1) = Ret (100 # 1)%Q /\
  fst (get_total 42 w2) = Ret (100 # 1)%Q /\
  Qsum [(100 # 1)%Q; ((-30) # 1)%Q] == (70 # 1)%Q /\
  ~ ((100 # 1)%Q == (70 # 1)%Q).
Proof.
  cbv zeta. repeat split; try (vm_compute; reflexivity).
  intro H. vm_compute in H. discriminate H.
Qed.

(** C2: after AddTransaction the cache entry should be the total recomputed
    from the stored rows, the new row included.  On the code, once the entry
    exists, [save_transaction] stores the cached value back: after 100 and
    -30 the entry is 100 while the rows of the user sum to 70. *)
Theorem C2_save_transaction_keeps_cached_total :
  let w1 := snd (save_transaction 42 (100 # 1) "general" (fresh "2024-05-01")) in
  let w2 := snd (save_transaction 42 ((-30) # 1) "general" w1) in
  map txn_amount (transactions (db w2)) = [(100 # 1)%Q; ((-30) # 1)%Q] /\
  user_totals_cache w2 !! 42 = Some (100 # 1)%Q /\
  sum_for_user 42 (db w2) == (70 # 1)%Q /\
  ~ ((100 # 1)%Q == sum_for_user 42 (db w2)).
Proof.
  cbv zeta. repeat split; try (vm_compute; reflexivity).
  intro H. vm_compute in H. discriminate H.
Qed.

(** C3: in every reachable state a cached total should equal the sum of the
    user's rows.  The state reached from a fresh process by two
    AddTransaction calls has a cache entry that differs from that sum. *)
Theorem C3_reachable_state_with_stale_cache :
  exists w, reachable w /\ ~ cache_consistent w.
Proof.
  exists (run_ops [AddTransaction 42 (100 # 1); AddTransaction 42 ((-30) # 1)]
                  (fresh "2024-05-01")).
  split.
  - exists "2024-05-01", [AddTransaction 42 (100 # 1); AddTransaction 42 ((-30) # 1)].
    reflexivity.
  - intro H. specialize (H 42 (100 # 1)%Q).
    assert (Hc : (100 # 1)%Q == (70 # 1)%Q).
    { rewrite H by (vm_compute; reflexivity). vm_compute. reflexivity. }
    vm_compute in Hc. discriminate Hc.
Qed.

(** C4: after ResetForUser the next GetTotal should return 0, the user's
    rows should be gone and the cache entry should be set to 0.
    [reset_transactions] deletes the rows and leaves the cache alone: after
    one transaction of 100 and a reset, the rows are gone, the entry is still
    100 and GetTotal returns 100. *)
Theorem C4_reset_leaves_cached_total :
  let w1 := run_op (AddTransaction 42 (100 # 1)) (fresh "2024-05-01") in
  let w2 := run_op (ResetForUser 42) w1 in
  fst (list_transactions 42 w2) = Ret [] /\
  user_totals_cache w2 !! 42 = Some (100 # 1)%Q /\
  fst (get_total 42 w2) = Ret (100 # 1)%Q.
Proof.
  cbv zeta. repeat split; vm_compute; reflexivity.
Qed.

(** C5: GetTotal should return the same value right before and right after
    ClearCache.  In the state reached by adding 100 and -30 for user 42,
    GetTotal returns 100 before the cache is cleared and 70 after. *)
Theorem C5_clear_cache_changes_total :
  let w := run_ops [AddTransaction 42 (100 # 1); AddTransaction 42 ((-30) # 1)]
                   (fresh "2024-05-01") in
  reachable w /\
  fst (get_total 42 w) = Ret (100 # 1)%Q /\
  fst (get_total 42 (run_op ClearCache w)) = Ret (70 # 1)%Q.
Proof.
  cbv zeta. split; [| split; vm_compute; reflexivity].
  exists "2024-05-01", [AddTransaction 42 (100 # 1); AddTransaction 42 ((-30) # 1)].
  reflexivity.
Qed.

(** ** The monad and the context manager *)

Lemma with_Database_no_faults {A} (body : cursor -> M A) (w : world) :
  plan w = [] ->
  with_Database body w = body (Cursor no_faults (db w)) w.
Proof.
  intros Hp. unfold with_Database, Database_enter, bind, next_faults.
  rewrite Hp. simpl.
  destruct (body (Cursor no_faults (db w)) w) as [r w2]. reflexivity.
Qed.

Lemma db_execute_ok {A} (cur : cursor) (stmt : tables -> tables * A) (w : world) :
  execute_fails (cur_faults cur) = false ->
  db_execute cur stmt w = (Ret (snd (stmt (db w))), set_db (fst (stmt (db w))) w).
Proof.
  intros He. unfold db_execute. rewrite He.
  destruct (stmt (db w)) as [t a]. reflexivity.
Qed.

Lemma set_db_same (w : world) : set_db (db w) w = w.
Proof. destruct w. reflexivity. Qed.

(** A read-only statement in a world without planned failures. *)
Lemma query_no_faults {A} (q : tables -> A) (w : world) :
  plan w = [] ->
  with_Database (fun cur => db_execute cur (fun t => (t, q t))) w
  = (Ret (q (db w)), w).
Proof.
  intros Hp. rewrite with_Database_no_faults by exact Hp.
  rewrite db_execute_ok by reflexivity. simpl. rewrite set_db_same. reflexivity.
Qed.

Lemma get_total_hit (chat_id : Z) (total : Q) (w : world) :
  user_totals_cache w !! chat_id = Some total ->
  get_total chat_id w = (Ret total, w).
Proof.
  intros Hhit. unfold get_total, bind, gets. rewrite Hhit. reflexivity.
Qed.

Lemma get_total_miss (chat_id : Z) (w : world) :
  plan w = [] ->
  user_totals_cache w !! chat_id = None ->
  get_total chat_id w
  = (Ret (sum_for_user chat_id (db w)),
     set_cache (<[chat_id := sum_for_user chat_id (db w)]> (user_totals_cache w)) w).
Proof.
  intros Hp Hmiss. unfold get_total, bind at 1, gets. rewrite Hmiss.
  rewrite with_Database_no_faults by exact Hp.
  unfold bind at 1. rewrite db_execute_ok by reflexivity.
  simpl. rewrite set_db_same. reflexivity.
Qed.

(** ** Date aggregates *)

Lemma compare_refl (d : string) : String.compare d d = Eq.
Proof.
  pose proof (String.compare_antisym d d) as H.
  destruct (String.compare d d); simpl in H; congruence.
Qed.

Lemma date_lt_irrefl (d : string) : ~ date_lt d d.
Proof. unfold date_lt. rewrite compare_refl. discriminate. Qed.

Lemma date_lt_trans (a b c : string) : date_lt a b -> date_lt b c -> date_lt a c.
Proof.
  unfold date_lt. intros Hab Hbc.
  apply OrderedTypeEx.String_as_OT.cmp_lt.
  apply OrderedTypeEx.String_as_OT.cmp_lt in Hab, Hbc.
  exact (OrderedTypeEx.String_as_OT.lt_trans _ _ _ Hab Hbc).
Qed.

Lemma compare_Gt_lt (a b : string) : String.compare a b = Gt -> date_lt b a.
Proof.
  unfold date_lt. intros H. rewrite String.compare_antisym, H. reflexivity.
Qed.

Lemma group_insert_keys (d : string) (a : Q) (acc : list (string * Q)) (x : string) :
  x ∈ map fst (group_insert d a acc) <-> x = d \/ x ∈ map fst acc.
Proof.
  induction acc as [| [d' total] rest IH]; simpl.
  - rewrite list_elem_of_singleton, elem_of_nil. tauto.
  - destruct (String.compare d d') eqn:Hc; simpl.
    + apply String.compare_eq_iff in Hc. subst d'.
      rewrite !elem_of_cons. tauto.
    + rewrite !elem_of_cons. tauto.
    + rewrite !elem_of_cons, IH. tauto.
Qed.

Lemma group_insert_sorted (d : string) (a : Q) (acc : list (string * Q)) :
  StronglySorted date_lt (map fst acc) ->
  StronglySorted date_lt (map fst (group_insert d a acc)).
Proof.
  induction acc as [| [d' total] rest IH]; simpl; intros Hs.
  - repeat constructor.
  - inversion Hs as [| ? ? Hrest Hall]; subst.
    destruct (String.compare d d') eqn:Hc; simpl.
    + exact Hs.
    + constructor; [exact Hs |].
      constructor; [exact Hc |].
      eapply Forall_impl; [exact Hall |].
      intros y Hy. exact (date_lt_trans _ _ _ Hc Hy).
    + constructor; [exact (IH Hrest) |].
      apply Forall_forall. intros y Hy.
      apply group_insert_keys in Hy as [-> | Hy].
      * exact (compare_Gt_lt _ _ Hc).
      * rewrite Forall_forall in Hall. exact (Hall y Hy).
Qed.

Lemma group_by_date_snoc (rows : list txn) (r : txn) :
  group_by_date (rows ++ [r])
  = group_insert (txn_date r) (txn_amount r) (group_by_date rows).
Proof. unfold group_by_date. rewrite fold_left_app. reflexivity. Qed.

Lemma group_by_date_sorted (rows : list txn) :
  StronglySorted date_lt (map fst (group_by_date rows)).
Proof.
  induction rows as [| r rows IH] using rev_ind.
  - constructor.
  - rewrite group_by_date_snoc. apply group_insert_sorted, IH.
Qed.

Lemma group_by_date_keys (rows : list txn) (d : string) :
  d ∈ map fst (group_by_date rows) <-> d ∈ map txn_date rows.
Proof.
  induction rows as [| r rows IH] using rev_ind.
  - reflexivity.
  - rewrite group_by_date_snoc, group_insert_keys, IH, map_app, elem_of_app.
    simpl. rewrite list_elem_of_singleton. tauto.
Qed.

Lemma sorted_NoDup (l : list string) : StronglySorted date_lt l -> NoDup l.
Proof.
  induction 1 as [| x l Hs IH Hall]; constructor; [| exact IH].
  intros Hx. rewrite Forall_forall in Hall.
  exact (date_lt_irrefl x (Hall x Hx)).
Qed.

Lemma Qsum_app (l k : list Q) : Qsum (l ++ k) == Qsum l + Qsum k.
Proof.
  induction l as [| x l IH]; simpl.
  - ring.
  - rewrite IH. ring.
Qed.

Lemma group_insert_sum (d : string) (a : Q) (acc : list (string * Q)) :
  Qsum (map snd (group_insert d a acc)) == Qsum (map snd acc) + a.
Proof.
  induction acc as [| [d' total] rest IH]; simpl.
  - ring.
  - destruct (String.compare d d'); simpl.
    + ring.
    + ring.
    + rewrite IH. ring.
Qed.

Lemma group_by_date_sum (rows : list txn) :
  Qsum (map snd (group_by_date rows)) == Qsum (map txn_amount rows).
Proof.
  induction rows as [| r rows IH] using rev_ind.
  - reflexivity.
  - rewrite group_by_date_snoc, group_insert_sum, IH, map_app, Qsum_app.
    simpl. ring.
Qed.

Lemma total_of_cons (x : string) (p : string * Q) (l : list (string * Q)) :
  total_of x (p :: l)
  = if decide (fst p = x) then Qplus (snd p) (total_of x l) else total_of x l.
Proof.
  unfold total_of. rewrite filter_cons. destruct (decide (fst p = x)); reflexivity.
Qed.

Lemma group_insert_total (x d : string) (a : Q) (acc : list (string * Q)) :
  total_of x (group_insert d a acc)
  == total_of x acc + (if decide (d = x) then a else 0 # 1).
Proof.
  induction acc as [| [d' total] rest IH]; simpl.
  - rewrite total_of_cons. simpl. destruct (decide (d = x)); unfold total_of; simpl; ring.
  - destruct (String.compare d d') eqn:Hc.
    + apply String.compare_eq_iff in Hc. subst d'.
      rewrite !total_of_cons. simpl. destruct (decide (d = x)); ring.
    + assert (Hne : d <> d').
      { intros ->. rewrite compare_refl in Hc. discriminate. }
      rewrite !total_of_cons. simpl.
      destruct (decide (d = x)), (decide (d' = x)); try congruence; ring.
    + rewrite !total_of_cons. simpl. destruct (decide (d' = x)).
      * rewrite IH. ring.
      * exact IH.
Qed.

Lemma amounts_on_snoc (x : string) (rows : list txn) (r : txn) :
  amounts_on x (rows ++ [r])
  = amounts_on x rows ++ (if decide (txn_date r = x) then [txn_amount r] else []).
Proof.
  unfold amounts_on. rewrite filter_app, map_app. f_equal.
  rewrite filter_cons, filter_nil. destruct (decide (txn_date r = x)); reflexivity.
Qed.

Lemma group_by_date_total (rows : list txn) (x : string) :
  total_of x (group_by_date rows) == Qsum (amounts_on x rows).
Proof.
  induction rows as [| r rows IH] using rev_ind.
  - reflexivity.
  - rewrite group_by_date_snoc, group_insert_total, IH, amounts_on_snoc, Qsum_app.
    destruct (decide (txn_date r = x)); simpl; ring.
Qed.

Lemma total_of_absent (x : string) (l : list (string * Q)) :
  x ∉ map fst l -> total_of x l = (0 # 1)%Q.
Proof.
  induction l as [| [k v] l IH]; intros Hx.
  - reflexivity.
  - rewrite total_of_cons. simpl in *. rewrite not_elem_of_cons in Hx.
    destruct Hx as [Hne Hx]. destruct (decide (k = x)); [congruence | exact (IH Hx)].
Qed.

Lemma total_of_unique (x : string) (t : Q) (l : list (string * Q)) :
  NoDup (map fst l) -> (x, t) ∈ l -> total_of x l == t.
Proof.
  induction l as [| [k v] l IH]; intros Hnd Hin.
  - apply elem_of_nil in Hin. contradiction.
  - simpl in Hnd. apply NoDup_cons in Hnd as [Hk Hnd].
    rewrite total_of_cons. simpl.
    apply elem_of_cons in Hin as [Heq | Hin].
    + injection Heq as -> ->.
      rewrite decide_True by reflexivity.
      rewrite (total_of_absent _ _ Hk). ring.
    + assert (Hx : x ∈ map fst l).
      { apply list_elem_of_fmap. exists (x, t). split; [reflexivity | exact Hin]. }
      rewrite decide_False by (intros ->; exact (Hk Hx)).
      exact (IH Hnd Hin).
Qed.

(** The series [send_graph] plots for one user is ordered in the same way. *)
Lemma send_graph_series_sorted (chat_id : Z) (t : tables) :
  StronglySorted date_lt (map fst (snd (select_date_sums_of chat_id t))).
Proof. apply group_by_date_sorted. Qed.

(** *** The grouping at any aggregate *)

Lemma group_insert_with_keys {A} (g : aggregate A) (d : string) (a : A)
    (acc : list (string * agg_state g)) (x : string) :
  x ∈ map fst (group_insert_with g d a acc) <-> x = d \/ x ∈ map fst acc.
Proof.
  induction acc as [| [d' s] rest IH]; simpl.
  - rewrite list_elem_of_singleton, elem_of_nil. tauto.
  - destruct (String.compare d d') eqn:Hc; simpl.
    + apply String.compare_eq_iff in Hc. subst d'.
      rewrite !elem_of_cons. tauto.
    + rewrite !elem_of_cons. tauto.
    + rewrite !elem_of_cons, IH. tauto.
Qed.

Lemma group_insert_with_sorted {A} (g : aggregate A) (d : string) (a : A)
    (acc : list (string * agg_state g)) :
  StronglySorted date_lt (map fst acc) ->
  StronglySorted date_lt (map fst (group_insert_with g d a acc)).
Proof.
  induction acc as [| [d' s] rest IH]; simpl; intros Hs.
  - repeat constructor.
  - inversion Hs as [| ? ? Hrest Hall]; subst.
    destruct (String.compare d d') eqn:Hc; simpl.
    + exact Hs.
    + constructor; [exact Hs |].
      constructor; [exact Hc |].
      eapply Forall_impl; [exact Hall |].
      intros y Hy. exact (date_lt_trans _ _ _ Hc Hy).
    + constructor; [exact (IH Hrest) |].
      apply Forall_forall. intros y Hy.
      apply group_insert_with_keys in Hy as [-> | Hy].
      * exact (compare_Gt_lt _ _ Hc).
      * rewrite Forall_forall in Hall. exact (Hall y Hy).
Qed.

Lemma groups_with_snoc {A} (g : aggregate A) (rows : list (string * A))
    (r : string * A) :
  groups_with g (rows ++ [r])
  = group_insert_with g (fst r) (snd r) (groups_with g rows).
Proof. unfold groups_with. rewrite fold_left_app. reflexivity. Qed.

Lemma groups_with_sorted {A} (g : aggregate A) (rows : list (string * A)) :
  StronglySorted date_lt (map fst (groups_with g rows)).
Proof.
  induction rows as [| r rows IH] using rev_ind.
  - constructor.
  - rewrite groups_with_snoc. apply group_insert_with_sorted, IH.
Qed.

Lemma groups_with_keys {A} (g : aggregate A) (rows : list (string * A)) (d : string) :
  d ∈ map fst (groups_with g rows) <-> d ∈ map fst rows.
Proof.
  induction rows as [| r rows IH] using rev_ind.
  - reflexivity.
  - rewrite groups_with_snoc, group_insert_with_keys, IH, map_app, elem_of_app.
    simpl. rewrite list_elem_of_singleton. tauto.
Qed.

Lemma eqb_date_lt (d d' : string) : date_lt d d' -> String.eqb d d' = false.
Proof.
  intros Hlt. apply String.eqb_neq. intros ->. exact (date_lt_irrefl _ Hlt).
Qed.

Lemma group_of_above {S} (d : string) (acc : list (string * S)) :
  Forall (date_lt d) (map fst acc) -> group_of d acc = None.
Proof.
  induction acc as [| [d' s] rest IH]; simpl; intros Hall; [reflexivity |].
  inversion Hall as [| ? ? Hlt Hrest]; subst.
  rewrite (eqb_date_lt _ _ Hlt). exact (IH Hrest).
Qed.

Lemma group_insert_with_group_of {A} (g : aggregate A) (d : string) (a : A)
    (acc : list (string * agg_state g)) (x : string) :
  StronglySorted date_lt (map fst acc) ->
  group_of x (group_insert_with g d a acc)
  = if String.eqb x d
    then Some (agg_step g (default (agg_init g) (group_of d acc)) a)
    else group_of x acc.
Proof.
  induction acc as [| [d' s] rest IH]; simpl; intros Hs.
  - destruct (String.eqb x d); reflexivity.
  - inversion Hs as [| ? ? Hrest Hall]; subst.
    destruct (String.compare d d') eqn:Hc; simpl.
    + apply String.compare_eq_iff in Hc. subst d'.
      rewrite String.eqb_refl. simpl.
      destruct (String.eqb x d); reflexivity.
    + rewrite (eqb_date_lt _ _ Hc).
      rewrite (group_of_above d rest); [reflexivity |].
      eapply Forall_impl; [exact Hall |].
      intros y Hy. exact (date_lt_trans _ _ _ Hc Hy).
    + rewrite (IH Hrest).
      assert (Hne : String.eqb d d' = false).
      { rewrite String.eqb_sym. apply eqb_date_lt, compare_Gt_lt, Hc. }
      rewrite Hne.
      destruct (String.eqb_spec x d') as [-> | Hx]; [| reflexivity].
      rewrite String.eqb_sym, Hne. reflexivity.
Qed.

Lemma values_on_snoc {A} (x : string) (rows : list (string * A)) (r : string * A) :
  values_on x (rows ++ [r])
  = values_on x rows ++ (if decide (fst r = x) then [snd r] else []).
Proof.
  unfold values_on. rewrite filter_app, map_app. f_equal.
  rewrite filter_cons, filter_nil. destruct (decide (fst r = x)); reflexivity.
Qed.

(** The accumulator of a date has taken the values of its rows, in order. *)
Lemma groups_with_group_of {A} (g : aggregate A) (rows : list (string * A))
    (x : string) :
  group_of x (groups_with g rows)
  = match values_on x rows with
    | [] => None
    | _ => Some (fold_left (agg_step g) (values_on x rows) (agg_init g))
    end.
Proof.
  induction rows as [| [d a] rows IH] using rev_ind; [reflexivity |].
  rewrite groups_with_snoc, values_on_snoc.
  rewrite group_insert_with_group_of by apply groups_with_sorted.
  cbn [fst snd].
  destruct (String.eqb_spec x d) as [-> | Hx].
  - rewrite decide_True by reflexivity. rewrite IH.
    destruct (values_on d rows) as [| v vs]; [reflexivity |].
    simpl default. rewrite fold_left_app. reflexivity.
  - rewrite decide_False by congruence. rewrite app_nil_r. exact IH.
Qed.

Lemma group_of_elem {S} (acc : list (string * S)) (x : string) (s : S) :
  NoDup (map fst acc) -> (x, s) ∈ acc -> group_of x acc = Some s.
Proof.
  induction acc as [| [k v] acc IH]; intros Hnd Hin.
  - apply elem_of_nil in Hin. contradiction.
  - simpl in Hnd. apply NoDup_cons in Hnd as [Hk Hnd]. simpl.
    apply elem_of_cons in Hin as [Heq | Hin].
    + injection Heq as -> ->. rewrite String.eqb_refl. reflexivity.
    + destruct (String.eqb_spec x k) as [-> | Hx]; [| exact (IH Hnd Hin)].
      exfalso. apply Hk. apply list_elem_of_fmap. exists (k, s).
      split; [reflexivity | exact Hin].
Qed.

Lemma group_by_date_with_keys {A} (g : aggregate A) (rows : list (string * A)) :
  map fst (group_by_date_with g rows) = map fst (groups_with g rows).
Proof.
  unfold group_by_date_with. rewrite map_map. reflexivity.
Qed.

(** Whatever the aggregate: one group per date of the rows, in ascending
    order of the dates, each with what the aggregate returns for the values
    of that date in row order. *)
Lemma group_by_date_with_spec {A} (g : aggregate A) (rows : list (string * A)) :
  StronglySorted date_lt (map fst (group_by_date_with g rows)) /\
  NoDup (map fst (group_by_date_with g rows)) /\
  (forall d, d ∈ map fst (group_by_date_with g rows) <-> d ∈ map fst rows) /\
  (forall d total,
     (d, total) ∈ group_by_date_with g rows ->
     values_on d rows <> [] /\ total = aggregate_of g (values_on d rows)).
Proof.
  rewrite group_by_date_with_keys.
  pose proof (groups_with_sorted g rows) as Hs.
  pose proof (sorted_NoDup _ Hs) as Hnd.
  split; [exact Hs |]. split; [exact Hnd |]. split.
  - apply groups_with_keys.
  - intros d total Hin. unfold group_by_date_with in Hin.
    apply list_elem_of_fmap in Hin as ([k s] & Heq & Hin).
    simpl in Heq. injection Heq as -> ->.
    pose proof (group_of_elem _ _ _ Hnd Hin) as Hg.
    rewrite groups_with_group_of in Hg. unfold aggregate_of.
    destruct (values_on k rows) as [| v vs]; [discriminate Hg |].
    injection Hg as <-. split; [discriminate | reflexivity].
Qed.

(** [group_by_date] is the grouping at the exact sum. *)
Lemma group_insert_is_sum_Q (d : string) (a : Q) (acc : list (string * Q)) :
  group_insert d a acc = group_insert_with sum_Q d a acc.
Proof.
  induction acc as [| [d' total] rest IH]; simpl; [reflexivity |].
  destruct (String.compare d d'); [reflexivity | reflexivity |].
  rewrite IH. reflexivity.
Qed.

Lemma groups_with_sum_Q (rows : list txn) :
  groups_with sum_Q (map date_amount rows) = group_by_date rows.
Proof.
  induction rows as [| r rows IH] using rev_ind; [reflexivity |].
  rewrite map_app. simpl map. rewrite groups_with_snoc, group_by_date_snoc, IH.
  symmetry. apply group_insert_is_sum_Q.
Qed.

Lemma group_by_date_is_sum_Q (rows : list txn) :
  group_by_date rows = group_by_date_with sum_Q (map date_amount rows).
Proof.
  unfold group_by_date_with. rewrite groups_with_sum_Q.
  induction (group_by_date rows) as [| [d total] l IH]; [reflexivity |].
  simpl. f_equal. exact IH.
Qed.

Lemma values_on_date_amount (d : string) (rows : list txn) :
  values_on d (map date_amount rows) = amounts_on d rows.
Proof.
  unfold values_on, amounts_on.
  induction rows as [| r rows IH]; [reflexivity |].
  simpl map at 2. rewrite !filter_cons. simpl fst.
  destruct (decide (txn_date r = d)); simpl; rewrite IH; reflexivity.
Qed.

Lemma sql_sum_aggregate (amounts : list Q) :
  amounts <> [] -> sql_sum amounts = Some (aggregate_of sum_Q amounts).
Proof.
  destruct amounts; [congruence | reflexivity].
Qed.




(** ** Broadcast *)

Lemma substring_length_le (s : string) (n m : nat) :
  (String.length (substring n m s) <= m)%nat.
Proof.
  revert n m. induction s as [| c s IH]; intros [| n] [| m]; simpl; try lia.
  - specialize (IH 0%nat m). lia.
  - specialize (IH n 0%nat). lia.
  - specialize (IH n (S m)). lia.
Qed.

Lemma substring_0_all (s : string) (n : nat) :
  (String.length s <= n)%nat -> substring 0 n s = s.
Proof.
  revert n. induction s as [| c s IH]; intros [| n] Hl; simpl in *;
    try reflexivity; try lia.
  rewrite IH by lia. reflexivity.
Qed.

Lemma substring_skip (c : ascii) (s : string) (n m : nat) :
  substring (S n) m (String c s) = substring n m s.
Proof. destruct m; reflexivity. Qed.

Lemma substring_0_split (s : string) (a b : nat) :
  substring 0 (a + b) s = substring 0 a s +:+ substring a b s.
Proof.
  revert s. induction a as [| a IH]; intros s.
  - simpl. destruct s, b; reflexivity.
  - destruct s as [| c s].
    + simpl. destruct b; reflexivity.
    + rewrite substring_skip. simpl. rewrite IH. reflexivity.
Qed.

Lemma append_empty_r (s : string) : s +:+ "" = s.
Proof.
  induction s as [| c s IH]; [reflexivity |].
  change (String c (s +:+ "") = String c s). rewrite IH. reflexivity.
Qed.

Lemma append_assoc (a b c : string) : (a +:+ b) +:+ c = a +:+ (b +:+ c).
Proof.
  induction a as [| x a IH]; [reflexivity |].
  change (String x ((a +:+ b) +:+ c) = String x (a +:+ (b +:+ c))).
  rewrite IH. reflexivity.
Qed.

Lemma concat_empty_cons (x : string) (l : list string) :
  String.concat "" (x :: l) = x +:+ String.concat "" l.
Proof.
  destruct l as [| y l]; simpl.
  - symmetry. apply append_empty_r.
  - reflexivity.
Qed.

Lemma concat_empty_app (l k : list string) :
  String.concat "" (l ++ k) = String.concat "" l +:+ String.concat "" k.
Proof.
  induction l as [| x l IH].
  - reflexivity.
  - rewrite <- app_comm_cons, !concat_empty_cons, IH, append_assoc. reflexivity.
Qed.

(** The first [c] pieces of length [n] make up the first [c * n] characters. *)
Lemma concat_pieces (s : string) (n c : nat) :
  String.concat "" (map (fun k => substring (k * n) n s) (seq 0 c))
  = substring 0 (c * n) s.
Proof.
  induction c as [| c IH].
  - simpl. destruct s; reflexivity.
  - rewrite seq_S, map_app, concat_empty_app, IH. simpl map.
    rewrite concat_empty_cons. simpl String.concat. rewrite append_empty_r.
    replace (S c * n)%nat with (c * n + n)%nat by lia.
    rewrite substring_0_split. reflexivity.
Qed.

Lemma chunks_pieces (message : string) :
  chunks message
  = map (fun k => substring (k * MAX_MSG_LEN) MAX_MSG_LEN message)
        (seq 0 ((String.length message + MAX_MSG_LEN - 1) / MAX_MSG_LEN)).
Proof.
  unfold chunks, range, slice. rewrite map_map, Nat.sub_0_r.
  apply map_ext. intros k.
  replace (0 + k * MAX_MSG_LEN + MAX_MSG_LEN - (0 + k * MAX_MSG_LEN))%nat
    with MAX_MSG_LEN by lia.
  reflexivity.
Qed.

Lemma pieces_cover (len n : nat) :
  (0 < n)%nat -> (len <= (len + n - 1) / n * n)%nat.
Proof.
  intros Hn.
  pose proof (Nat.div_mod_eq (len + n - 1) n) as Hd.
  pose proof (Nat.mod_upper_bound (len + n - 1) n ltac:(lia)) as Hm.
  rewrite (Nat.mul_comm _ n). lia.
Qed.

Lemma chunks_concat (message : string) :
  String.concat "" (chunks message) = message.
Proof.
  rewrite chunks_pieces, concat_pieces.
  apply substring_0_all, pieces_cover. unfold MAX_MSG_LEN. lia.
Qed.

Lemma chunks_length (message : string) :
  Forall (fun chunk => (String.length chunk <= MAX_MSG_LEN)%nat) (chunks message).
Proof.
  rewrite chunks_pieces. apply Forall_forall. intros chunk Hin.
  apply list_elem_of_fmap in Hin as [k [-> _]]. apply substring_length_le.
Qed.

Lemma send_chunk_sent (c : Z) (chunk : string) (w : world) :
  exists w', send_chunk c chunk w = (Ret tt, w') /\
             sent w' = sent w ++ [(c, chunk)].
Proof.
  unfold send_chunk. destruct (send_fails w c chunk).
  - eexists. split; reflexivity.
  - eexists. split; reflexivity.
Qed.

(** The inner loop: one call per chunk, in order, whatever the platform
    answers. *)
Lemma send_chunks_sent (c : Z) (cs : list string) (w : world) :
  exists r w', for_each (fun chunk => send_chunk c chunk) cs w = (Ret r, w') /\
               sent w' = sent w ++ map (pair c) cs.
Proof.
  revert w. induction cs as [| chunk cs IH]; intros w.
  - exists [], w. split; [reflexivity |]. simpl. rewrite app_nil_r. reflexivity.
  - destruct (send_chunk_sent c chunk w) as (w1 & H1 & Hs1).
    destruct (IH w1) as (r & w2 & H2 & Hs2).
    exists (tt :: r), w2. split.
    + simpl. unfold bind at 1. rewrite H1. unfold bind at 1. rewrite H2. reflexivity.
    + rewrite Hs2, Hs1, <- app_assoc. reflexivity.
Qed.

(** The outer loop over the users. *)
Lemma send_all_sent (cs : list string) (us : list Z) (w : world) :
  exists r w',
    for_each (fun user => for_each (fun chunk => send_chunk user chunk) cs) us w
    = (Ret r, w') /\
    sent w' = sent w ++ flat_map (fun user => map (pair user) cs) us.
Proof.
  revert w. induction us as [| user us IH]; intros w.
  - exists [], w. split; [reflexivity |]. simpl. rewrite app_nil_r. reflexivity.
  - destruct (send_chunks_sent user cs w) as (r1 & w1 & H1 & Hs1).
    destruct (IH w1) as (r & w2 & H2 & Hs2).
    exists (r1 :: r), w2. split.
    + simpl. unfold bind at 1. rewrite H1. unfold bind at 1. rewrite H2. reflexivity.
    + rewrite Hs2, Hs1, <- app_assoc. reflexivity.
Qed.

Lemma filter_recipient_same (c : Z) (cs : list string) :
  filter (fun p : Z * string => fst p = c) (map (pair c) cs) = map (pair c) cs.
Proof.
  induction cs as [| x cs IH]; [reflexivity |].
  simpl. rewrite filter_cons, decide_True by reflexivity. rewrite IH. reflexivity.
Qed.

Lemma filter_recipient_other (c user : Z) (cs : list string) :
  user <> c ->
  filter (fun p : Z * string => fst p = c) (map (pair user) cs) = [].
Proof.
  intros Hne. induction cs as [| x cs IH]; [reflexivity |].
  simpl. rewrite filter_cons, decide_False by exact Hne. exact IH.
Qed.

Lemma filter_recipient_absent (c : Z) (cs : list string) (us : list Z) :
  c ∉ us ->
  filter (fun p : Z * string => fst p = c)
         (flat_map (fun user => map (pair user) cs) us) = [].
Proof.
  induction us as [| user us IH]; intros Hc; [reflexivity |].
  apply not_elem_of_cons in Hc as [Hne Hc].
  simpl. rewrite filter_app, filter_recipient_other by congruence.
  exact (IH Hc).
Qed.

Lemma filter_recipient_once (c : Z) (cs : list string) (us : list Z) :
  NoDup us -> c ∈ us ->
  filter (fun p : Z * string => fst p = c)
         (flat_map (fun user => map (pair user) cs) us) = map (pair c) cs.
Proof.
  induction us as [| user us IH]; intros Hnd Hc.
  - apply elem_of_nil in Hc. contradiction.
  - apply NoDup_cons in Hnd as [Hu Hnd]. simpl. rewrite filter_app.
    apply elem_of_cons in Hc as [-> | Hc].
    + rewrite filter_recipient_same, filter_recipient_absent by exact Hu.
      apply app_nil_r.
    + rewrite filter_recipient_other by (intros ->; exact (Hu Hc)).
      exact (IH Hnd Hc).
Qed.

Lemma user_ids_NoDup (t : tables) : NoDup (snd (select_user_ids t)).
Proof. apply NoDup_fst_map_to_list. Qed.

Lemma user_ids_elem (t : tables) (c : Z) :
  c ∈ snd (select_user_ids t) <-> is_Some (users t !! c).
Proof.
  simpl. rewrite list_elem_of_fmap. split.
  - intros [[k role] [-> Hin]]. apply elem_of_map_to_list in Hin. simpl. eauto.
  - intros [role Hr]. exists (c, role). split; [reflexivity |].
    apply elem_of_map_to_list. exact Hr.
Qed.

(** ** The replacement of backslash-n *)

Lemma append_cons (c : ascii) (a b : string) : String c a +:+ b = String c (a +:+ b).
Proof. reflexivity. Qed.

Lemma concat_cons_head (sep : string) (c : ascii) (p : string) (ps : list string) :
  String.concat sep (String c p :: ps) = String c (String.concat sep (p :: ps)).
Proof. destruct ps; reflexivity. Qed.

Lemma replace_backslash_n_step (c c' : ascii) (r : string) :
  replace_backslash_n (String c (String c' r))
  = if (Ascii.eqb c' "n" && (code c =? 92)%N)%bool
    then String "010" (replace_backslash_n r)
    else String c (replace_backslash_n (String c' r)).
Proof.
  destruct c' as [[] [] [] [] [] [] [] []]; reflexivity.
Qed.

Lemma code_backslash (c : ascii) : (code c =? 92)%N = true <-> c = ascii_of_N 92.
Proof.
  unfold code. rewrite N.eqb_eq. split.
  - intros H. rewrite <- (ascii_N_embedding c), H. reflexivity.
  - intros ->. reflexivity.
Qed.

Lemma occurs_nil : ~ occurs backslash_n "".
Proof.
  intros (a & b & H). destruct a; discriminate H.
Qed.

Lemma occurs_cons (c : ascii) (p : string) :
  occurs backslash_n (String c p) ->
  (c = ascii_of_N 92 /\ exists b, p = String "n" b) \/ occurs backslash_n p.
Proof.
  intros (a & b & H). destruct a as [| c' a].
  - left. injection H as -> ->. split; [reflexivity |]. exists b. reflexivity.
  - right. rewrite append_cons in H. injection H as _ ->. exists a, b. reflexivity.
Qed.

Lemma occurs_skip (c : ascii) (p : string) :
  occurs backslash_n p -> occurs backslash_n (String c p).
Proof.
  intros (a & b & ->). exists (String c a), b. reflexivity.
Qed.

Lemma occurs_head (b : string) : occurs backslash_n (backslash_n +:+ b).
Proof. exists "", b. reflexivity. Qed.

Lemma replace_backslash_n_head (rest : string) :
  replace_backslash_n (backslash_n +:+ rest) = newline +:+ replace_backslash_n rest.
Proof. reflexivity. Qed.

(** A character that does not start an occurrence is copied. *)
Lemma replace_backslash_n_copy (c : ascii) (r : string) :
  ~ (c = ascii_of_N 92 /\ exists b, r = String "n" b) ->
  replace_backslash_n (String c r) = String c (replace_backslash_n r).
Proof.
  intros Hno. destruct r as [| c' r]; [reflexivity |].
  rewrite replace_backslash_n_step.
  destruct (Ascii.eqb c' "n") eqn:Hn; [| reflexivity].
  destruct (code c =? 92)%N eqn:Hc; [| reflexivity].
  exfalso. apply Hno. split; [apply code_backslash, Hc |].
  apply Ascii.eqb_eq in Hn. subst c'. exists r. reflexivity.
Qed.

Lemma replace_backslash_n_piece (p rest : string) :
  ~ occurs backslash_n p ->
  replace_backslash_n (p +:+ backslash_n +:+ rest)
  = p +:+ newline +:+ replace_backslash_n rest.
Proof.
  induction p as [| c p IH]; intros Hno.
  - reflexivity.
  - rewrite !append_cons. rewrite replace_backslash_n_copy.
    + rewrite IH; [reflexivity |]. intros Hp. apply Hno, occurs_skip, Hp.
    + intros [-> [b Hb]]. apply Hno. destruct p as [| c' p].
      * discriminate Hb.
      * rewrite append_cons in Hb. injection Hb as -> _. apply occurs_head.
Qed.

Lemma replace_backslash_n_none (p : string) :
  ~ occurs backslash_n p -> replace_backslash_n p = p.
Proof.
  induction p as [| c p IH]; intros Hno; [reflexivity |].
  rewrite replace_backslash_n_copy.
  - rewrite IH; [reflexivity |]. intros Hp. apply Hno, occurs_skip, Hp.
  - intros [-> [b ->]]. apply Hno, occurs_head.
Qed.

(** The function joins the pieces of any such cut by newlines. *)
Lemma replace_backslash_n_pieces (pieces : list string) :
  Forall (fun p => ~ occurs backslash_n p) pieces ->
  replace_backslash_n (String.concat backslash_n pieces)
  = String.concat newline pieces.
Proof.
  induction pieces as [| p ps IH]; intros Hall; [reflexivity |].
  inversion Hall as [| ? ? Hp Hps]; subst.
  destruct ps as [| q ps].
  - apply replace_backslash_n_none, Hp.
  - change (replace_backslash_n (p +:+ backslash_n +:+ String.concat backslash_n (q :: ps))
            = p +:+ newline +:+ String.concat newline (q :: ps)).
    rewrite replace_backslash_n_piece by exact Hp.
    rewrite IH by exact Hps. reflexivity.
Qed.

(** Every text has such a cut. *)
Lemma backslash_n_pieces (s : string) :
  exists p ps,
    s = String.concat backslash_n (p :: ps) /\
    Forall (fun p => ~ occurs backslash_n p) (p :: ps).
Proof.
  induction s as [| c r IH].
  - exists "", []. split; [reflexivity |]. repeat constructor. apply occurs_nil.
  - destruct IH as (p & ps & Hr & Hall).
    inversion Hall as [| ? ? Hp Hps]; subst.
    assert (Hcase : (c = ascii_of_N 92 /\ exists b, p = String "n" b) \/
                    ~ (c = ascii_of_N 92 /\ exists b, p = String "n" b)).
    { destruct (ascii_dec c (ascii_of_N 92)) as [Hc | Hc]; [| right; tauto].
      destruct p as [| c' p']; [right; intros [_ [b Hb]]; discriminate Hb |].
      destruct (ascii_dec c' "n") as [-> | Hn].
      - left. split; [exact Hc |]. exists p'. reflexivity.
      - right. intros [_ [b Hb]]. injection Hb as Hb _. contradiction. }
    destruct Hcase as [[-> [b ->]] | Hcopy].
    + exists "", (b :: ps). split.
      * rewrite concat_cons_head. reflexivity.
      * constructor; [apply occurs_nil |]. constructor; [| exact Hps].
        intros Hb. apply Hp, occurs_skip, Hb.
    + exists (String c p), ps. split.
      * rewrite concat_cons_head. reflexivity.
      * constructor; [| exact Hps].
        intros Hocc. apply occurs_cons in Hocc as [Hstart | Hin]; tauto.
Qed.

(** The text the function returns is the one text the specification allows. *)
Lemma replaces_backslash_n_iff (s t : string) :
  replaces_backslash_n s t <-> t = replace_backslash_n s.
Proof.
  split.
  - intros (pieces & -> & Hall & ->). symmetry.
    apply replace_backslash_n_pieces, Hall.
  - intros ->. destruct (backslash_n_pieces s) as (p & ps & Hs & Hall).
    exists (p :: ps). split; [exact Hs |]. split; [exact Hall |].
    rewrite Hs at 1. apply replace_backslash_n_pieces, Hall.
Qed.

(** C10: in a world without planned storage failures, a broadcast with a
    non-empty argument list returns normally.  Its message [m] is the
    arguments joined by spaces with every backslash-n replaced by a newline:
    the one text that joins by newlines the pieces into which the
    occurrences of backslash-n cut the joined arguments.  For every user of
    the table the [send_message] calls made are those for the chunks of [m],
    in order; every chunk has at most 4096 characters and the chunks put
    together are [m]. *)
Theorem C10_broadcast_sends_all_chunks
    (w : world) (u : update) (args : list string) (c : Z) :
  plan w = [] ->
  args <> [] ->
  is_Some (users (db w) !! c) ->
  exists m w',
    replaces_backslash_n (String.concat " " args) m /\
    (forall t, replaces_backslash_n (String.concat " " args) t -> t = m) /\
    m = broadcast_text args /\
    broadcast_message u args w = (Ret tt, w') /\
    sent_to c w' = sent_to c w ++ chunks m /\
    Forall (fun chunk => (String.length chunk <= MAX_MSG_LEN)%nat) (chunks m) /\
    String.concat "" (chunks m) = m.
Proof.
  intros Hp Hargs Hc.
  destruct args as [| a args]; [congruence |].
  set (m := broadcast_text (a :: args)).
  destruct (send_all_sent (chunks m) (snd (select_user_ids (db w))) w)
    as (r & w1 & Hloop & Hsent).
  exists m,
    (set_replies (replies w1 ++ [(message_chat_id u, Plain "Broadcast sent.")]) w1).
  split; [| split; [| split; [| split; [| split; [| split]]]]].
  - apply replaces_backslash_n_iff. reflexivity.
  - intros t Ht. apply replaces_backslash_n_iff in Ht. exact Ht.
  - reflexivity.
  - unfold broadcast_message. unfold bind at 1.
    change (with_Database (fun db => db_execute db select_user_ids) w)
      with (with_Database (fun db => db_execute db
              (fun t => (t, snd (select_user_ids t)))) w).
    rewrite (query_no_faults (fun t => snd (select_user_ids t)) w Hp).
    unfold bind at 1. fold (broadcast_text (a :: args)). fold m.
    rewrite Hloop. reflexivity.
  - unfold sent_to. simpl sent. rewrite Hsent, filter_app, map_app. f_equal.
    rewrite filter_recipient_once.
    + rewrite map_map. simpl. apply map_id.
    + apply user_ids_NoDup.
    + apply user_ids_elem. exact Hc.
  - apply chunks_length.
  - apply chunks_concat.
Qed.

(** C10 at two users and the arguments [hello] and [all\nbye], the second
    holding a backslash and an [n] between its two words: the one message
    sent to user 2 is [hello all], a newline, [bye]. *)
Lemma C10_broadcast_sends_all_chunks_witness :
  let w := World (Tables (<[1 := "user"]> (<[2 := "user"]> ∅)) [] 0) ∅ None
                 "2024-05-01" [] (fun _ _ => false) [] [] [] [] in
  let args := ["hello"; "all\nbye"] in
  let m := "hello all" +:+ newline +:+ "bye" in
  plan w = [] /\
  args <> [] /\
  is_Some (users (db w) !! 2) /\
  exists w',
    replaces_backslash_n (String.concat " " args) m /\
    broadcast_message (Update 1 "/broadcast hello all\nbye") args w = (Ret tt, w') /\
    sent_to 2 w' = [m].
Proof.
  cbv zeta.
  assert (Hp : plan (World (Tables (<[1 := "user"]> (<[2 := "user"]> ∅)) [] 0) ∅ None
                 "2024-05-01" [] (fun _ _ => false) [] [] [] []) = []) by reflexivity.
  assert (Ha : ["hello"; "all\nbye"] <> []) by discriminate.
  assert (Hu : is_Some (users (db (World (Tables (<[1 := "user"]> (<[2 := "user"]> ∅)) [] 0)
                 ∅ None "2024-05-01" [] (fun _ _ => false) [] [] [] [])) !! 2)).
  { exists "user". vm_compute. reflexivity. }
  split; [exact Hp |]. split; [exact Ha |]. split; [exact Hu |].
  destruct (C10_broadcast_sends_all_chunks _ (Update 1 "/broadcast hello all\nbye")
              _ 2 Hp Ha Hu) as (m & w' & Hspec & _ & Hm & Hrun & Hsent & _ & _).
  assert (Hval : m = "hello all" +:+ newline +:+ "bye")
    by (rewrite Hm; vm_compute; reflexivity).
  exists w'. rewrite <- Hval. split; [exact Hspec |]. split; [exact Hrun |].
  rewrite Hsent, Hval. vm_compute. reflexivity.
Defined.

(** ** Invalid input *)

Lemma add_user_no_faults (chat_id : Z) (role : string) (w : world) :
  plan w = [] ->
  add_user chat_id role w
  = (Ret tt, set_db (fst (insert_or_ignore_user chat_id role (db w))) w).
Proof.
  intros Hp. unfold add_user. rewrite with_Database_no_faults by exact Hp.
  rewrite db_execute_ok by reflexivity.
  destruct (insert_or_ignore_user chat_id role (db w)) as [t []]. reflexivity.
Qed.

Lemma insert_or_ignore_user_transactions (chat_id : Z) (role : string) (t : tables) :
  transactions (fst (insert_or_ignore_user chat_id role t)) = transactions t.
Proof.
  unfold insert_or_ignore_user. destruct (users t !! chat_id); reflexivity.
Qed.

Lemma insert_or_ignore_user_users (chat_id : Z) (role : string) (t : tables) :
  users (fst (insert_or_ignore_user chat_id role t))
  = match users t !! chat_id with
    | Some _ => users t
    | None => <[chat_id := role]> (users t)
    end.
Proof.
  unfold insert_or_ignore_user. destruct (users t !! chat_id); reflexivity.
Qed.

Lemma insert_or_ignore_user_last_rowid (chat_id : Z) (role : string) (t : tables) :
  last_rowid (fst (insert_or_ignore_user chat_id role t)) = last_rowid t.
Proof.
  unfold insert_or_ignore_user. destruct (users t !! chat_id); reflexivity.
Qed.

Lemma insert_or_ignore_user_present (chat_id : Z) (role : string) (t : tables) :
  is_Some (users (fst (insert_or_ignore_user chat_id role t)) !! chat_id).
Proof.
  rewrite insert_or_ignore_user_users.
  destruct (users t !! chat_id) as [r |] eqn:Hl.
  - rewrite Hl. eauto.
  - rewrite lookup_insert_eq. eauto.
Qed.

(** C8 (as amended): in a world without planned failures, a message whose
    text, stripped of surrounding whitespace, does not match the number
    pattern gets the fixed rejection reply; the transactions table and the
    totals cache are left as they were, and the users table gains the sender
    with role "user" when the sender was not in it. *)
Theorem C8_rejected_text_only_ensures_user (w : world) (u : update) :
  plan w = [] ->
  re_match_number (strip (message_text u)) = None ->
  exists w',
    handle_message u w = (Ret tt, w') /\
    replies w' = replies w ++
      [(message_chat_id u, Plain "Please send a valid number starting with + or -.")] /\
    transactions (db w') = transactions (db w) /\
    user_totals_cache w' = user_totals_cache w /\
    users (db w') = match users (db w) !! message_chat_id u with
                    | Some _ => users (db w)
                    | None => <[message_chat_id u := "user"]> (users (db w))
                    end.
Proof.
  intros Hp Hm. eexists. split.
  - unfold handle_message. unfold bind at 1.
    rewrite add_user_no_faults by exact Hp. rewrite Hm. reflexivity.
  - simpl. split; [reflexivity |]. split; [| split; [reflexivity |]].
    + apply insert_or_ignore_user_transactions.
    + apply insert_or_ignore_user_users.
Qed.

Lemma C8_rejected_text_only_ensures_user_witness :
  let w := fresh "2024-05-01" in
  let u := Update 7 "hello" in
  plan w = [] /\
  re_match_number (strip (message_text u)) = None /\
  exists w',
    handle_message u w = (Ret tt, w') /\
    replies w' = replies w ++
      [(message_chat_id u, Plain "Please send a valid number starting with + or -.")] /\
    transactions (db w') = transactions (db w) /\
    user_totals_cache w' = user_totals_cache w /\
    users (db w') = match users (db w) !! message_chat_id u with
                    | Some _ => users (db w)
                    | None => <[message_chat_id u := "user"]> (users (db w))
                    end.
Proof.
  cbv zeta.
  assert (Hp : plan (fresh "2024-05-01") = []) by reflexivity.
  assert (Hm : re_match_number (strip (message_text (Update 7 "hello"))) = None)
    by (vm_compute; reflexivity).
  split; [exact Hp |]. split; [exact Hm |].
  exact (C8_rejected_text_only_ensures_user _ _ Hp Hm).
Defined.

(** C8 as stated fails twice: a rejected message from a new sender adds the
    sender to the users table; and a text that does not match the pattern
    because of surrounding whitespace is accepted, its amount being saved
    and cached. *)
Lemma C8_rejected_text_changes_users :
  (re_match_number "hello" = None /\
   users (db (fresh "2024-05-01")) !! 7 = None /\
   users (db (snd (handle_message (Update 7 "hello") (fresh "2024-05-01")))) !! 7
   = Some "user") /\
  (re_match_number " 5 " = None /\
   map txn_amount (transactions (db (snd (handle_message (Update 7 " 5 ")
                                            (fresh "2024-05-01")))))
   = [(5 # 1)%Q] /\
   user_totals_cache (snd (handle_message (Update 7 " 5 ") (fresh "2024-05-01"))) !! 7
   = Some (5 # 1)%Q).
Proof.
  repeat split; vm_compute; reflexivity.
Qed.

(** ** The forecast *)

Lemma group_by_date_length (rows : list txn) :
  length (group_by_date rows) = length (remove_dups (map txn_date rows)).
Proof.
  rewrite <- (length_map fst (group_by_date rows)).
  apply Permutation_length, NoDup_Permutation.
  - apply sorted_NoDup, group_by_date_sorted.
  - apply NoDup_remove_dups.
  - intros d. rewrite group_by_date_keys, elem_of_remove_dups. reflexivity.
Qed.

(** Whatever the plan, a read-only statement leaves the model file alone and
    either raises or returns the answer on the tables of the world. *)
Lemma query_any_plan {A} (q : tables -> A) (w : world) :
  model_pkl (snd (with_Database (fun cur => db_execute cur (fun t => (t, q t))) w))
  = model_pkl w /\
  (fst (with_Database (fun cur => db_execute cur (fun t => (t, q t))) w)
   = Ret (q (db w)) \/
   exists e, fst (with_Database (fun cur => db_execute cur (fun t => (t, q t))) w)
             = Raise e).
Proof.
  unfold with_Database, Database_enter, Database_exit, next_faults, db_execute,
    bind, gets, ret, raise, logger_error, modify.
  destruct w as [t c m d p sf er rp st fl]; simpl.
  destruct p as [| [cf ef mf] rest]; simpl.
  - split; [reflexivity | left; reflexivity].
  - destruct cf, ef, mf; simpl; split; try reflexivity;
      first [left; reflexivity | right; eexists; reflexivity].
Qed.

Lemma for_each_cons {A B} (f : A -> M B) (x : A) (rest : list A) (w : world) :
  for_each f (x :: rest) w
  = match f x w with
    | (Ret y, w1) =>
        match for_each f rest w1 with
        | (Ret ys, w2) => (Ret (y :: ys), w2)
        | (Raise e, w2) => (Raise e, w2)
        end
    | (Raise e, w1) => (Raise e, w1)
    end.
Proof. reflexivity. Qed.

Lemma for_each_toordinal (rows : list (string * Q)) (w : world) :
  snd (for_each (fun row => toordinal (fst row)) rows w) = w /\
  ((exists dates,
      fst (for_each (fun row => toordinal (fst row)) rows w) = Ret dates /\
      length dates = length rows) \/
   fst (for_each (fun row => toordinal (fst row)) rows w) = Raise ValueError).
Proof.
  induction rows as [| row rows IH].
  - split; [reflexivity |]. left. exists []. split; reflexivity.
  - rewrite for_each_cons. unfold toordinal at 1 3 5.
    destruct (strptime_toordinal (fst row)) as [n |].
    + unfold ret at 1 2 3. destruct IH as [Hw Hr].
      destruct (for_each (fun row => toordinal (fst row)) rows w) as [r w1].
      simpl in Hw, Hr. subst w1.
      destruct Hr as [(dates & -> & Hlen) | ->].
      * split; [reflexivity |]. left. exists (n :: dates).
        split; [reflexivity | simpl; congruence].
      * split; [reflexivity | right; reflexivity].
    + split; [reflexivity | right; reflexivity].
Qed.

Lemma train_model_few_dates (w : world) :
  (length (distinct_dates (db w)) < 2)%nat ->
  model_pkl (snd (train_model w)) = model_pkl w.
Proof.
  intros Hfew. unfold train_model. unfold bind at 1.
  change (with_Database (fun db => db_execute db select_date_sums) w)
    with (with_Database (fun db => db_execute db
            (fun t => (t, group_by_date (transactions t)))) w).
  destruct (query_any_plan (fun t => group_by_date (transactions t)) w) as [Hm Hr].
  destruct (with_Database _ w) as [r w1]. simpl in Hm, Hr.
  destruct Hr as [-> | [e ->]]; [| exact Hm].
  unfold bind at 1.
  destruct (for_each_toordinal (group_by_date (transactions (db w))) w1) as [Hw Hd].
  destruct (for_each _ (group_by_date (transactions (db w))) w1) as [r2 w2].
  simpl in Hw, Hd. subst w2.
  destruct Hd as [(dates & -> & Hlen) | ->]; [| exact Hm].
  rewrite group_by_date_length in Hlen. unfold distinct_dates in Hfew.
  replace (1 <? length dates)%nat with false
    by (symmetry; apply Nat.ltb_ge; lia).
  exact Hm.
Qed.

(** C7 (as amended): when the table holds fewer than two distinct dates,
    [train_model] writes no model and leaves the model file as it was.  A
    prediction made afterwards fails, with FileNotFoundError, exactly when no
    model had been persisted before; when one had, a prediction for a
    well-formed date is answered from that earlier model. *)
Theorem C7_few_dates_keep_model_file (w : world) :
  (length (distinct_dates (db w)) < 2)%nat ->
  model_pkl (snd (train_model w)) = model_pkl w /\
  (model_pkl w = None ->
   forall date_str,
     fst (predict_future date_str (snd (train_model w))) = Raise FileNotFoundError) /\
  (forall m date_str n,
     model_pkl w = Some m ->
     strptime_toordinal date_str = Some n ->
     fst (predict_future date_str (snd (train_model w))) = Ret (Predict m n)).
Proof.
  intros Hfew. pose proof (train_model_few_dates w Hfew) as Hm.
  split; [exact Hm |]. split.
  - intros Hnone date_str. unfold predict_future, bind, gets.
    rewrite Hm, Hnone. reflexivity.
  - intros m date_str n Hsome Hn. unfold predict_future, bind, gets, toordinal.
    rewrite Hm, Hsome, Hn. reflexivity.
Qed.

Lemma C7_few_dates_keep_model_file_witness :
  let w := snd (add_transaction 1 (5 # 1) (fresh "2024-05-01")) in
  (length (distinct_dates (db w)) < 2)%nat /\
  model_pkl (snd (train_model w)) = model_pkl w /\
  (model_pkl w = None ->
   forall date_str,
     fst (predict_future date_str (snd (train_model w))) = Raise FileNotFoundError) /\
  (forall m date_str n,
     model_pkl w = Some m ->
     strptime_toordinal date_str = Some n ->
     fst (predict_future date_str (snd (train_model w))) = Ret (Predict m n)).
Proof.
  cbv zeta.
  assert (Hfew : (length (distinct_dates
            (db (snd (add_transaction 1 (5 # 1) (fresh "2024-05-01"))))) < 2)%nat)
    by (vm_compute; lia).
  split; [exact Hfew |].
  exact (C7_few_dates_keep_model_file _ Hfew).
Defined.

(** C7 as stated fails when a model was persisted earlier: a table with two
    dates is fitted, the rows are reset, and fitting runs again on the empty
    table; the prediction that follows raises nothing and is answered from
    the model of the first fit. *)
Lemma C7_prediction_from_earlier_model :
  let rows := [Txn 1 (5 # 1) "2024-05-01" "general" 42;
               Txn 2 (7 # 1) "2024-05-02" "general" 42] in
  let w0 := World (Tables (<[42 := "user"]> ∅) rows 2) ∅ None
                  "2024-05-03" [] (fun _ _ => false) [] [] [] [] in
  let w1 := snd (train_model w0) in
  let w2 := snd (reset_transactions (Update 42 "/reset") w1) in
  let w3 := snd (train_model w2) in
  distinct_dates (db w2) = [] /\
  fst (train_model w2) = Ret tt /\
  fst (predict_future "2025-01-01" w3)
  = Ret (Predict (Fitted [739007; 739008] [(5 # 1)%Q; (7 # 1)%Q]) 739252).
Proof.
  cbv zeta. repeat split; vm_compute; reflexivity.
Qed.

(** ** Storage failures *)




































(** A failed connection is logged as well; what the caller sees is the
    [AttributeError] of the cursor that was never created. *)
Example connect_failure_raises_AttributeError :
  let w := set_plan [Faults true false false] (fresh "2024-05-01") in
  fst (save_transaction 42 (100 # 1) "general" w) = Raise AttributeError /\
  errors (snd (save_transaction 42 (100 # 1) "general" w))
  = ["Error connecting to database"].
Proof.
  cbv zeta. split; vm_compute; reflexivity.
Qed.

(** ** How the cache follows the table *)

(** X3: without planned failures, [get_total] for a chat that has no cache
    entry and no row in the table returns 0; it raises nothing. *)
Lemma get_total_no_rows (chat_id : Z) (w : world) :
  plan w = [] ->
  user_totals_cache w !! chat_id = None ->
  filter (fun r => txn_chat_id r = chat_id) (transactions (db w)) = [] ->
  fst (get_total chat_id w) = Ret (0 # 1)%Q.
Proof.
  intros Hp Hmiss Hrows. rewrite get_total_miss by assumption.
  unfold sum_for_user, select_sum, select_transactions. simpl.
  rewrite Hrows. reflexivity.
Qed.

(** X4: without planned failures, [save_transaction] for a chat that has no
    cache entry appends the row and caches the total of the rows of the chat
    in the table, the new one included. *)
Lemma save_transaction_uncached
    (chat_id : Z) (amount : Q) (category : string) (w : world) :
  plan w = [] ->
  user_totals_cache w !! chat_id = None ->
  exists w',
    save_transaction chat_id amount category w = (Ret tt, w') /\
    transactions (db w')
    = transactions (db w)
      ++ [Txn (last_rowid (db w) + 1) amount (today w) category chat_id] /\
    user_totals_cache w' !! chat_id = Some (sum_for_user chat_id (db w')).
Proof.
  intros Hp Hmiss. eexists. split.
  - unfold save_transaction. unfold bind at 1, gets. unfold bind at 1.
    rewrite with_Database_no_faults by exact Hp.
    unfold bind at 1. rewrite db_execute_ok by reflexivity. simpl fst. simpl snd.
    unfold ret at 1. cbn [still_open cur_faults commit_fails no_faults].
    unfold bind at 1. rewrite get_total_miss by assumption.
    reflexivity.
  - simpl. split; [reflexivity |].
    rewrite lookup_insert_eq. reflexivity.
Qed.

(** X5: without planned failures, [save_transaction] for a chat that has a
    cache entry appends the row and leaves the entry at the value it had:
    [get_total] answers from the entry and that value is stored back. *)
Lemma save_transaction_cached
    (chat_id : Z) (amount : Q) (category : string) (total : Q) (w : world) :
  plan w = [] ->
  user_totals_cache w !! chat_id = Some total ->
  exists w',
    save_transaction chat_id amount category w = (Ret tt, w') /\
    transactions (db w')
    = transactions (db w)
      ++ [Txn (last_rowid (db w) + 1) amount (today w) category chat_id] /\
    user_totals_cache w' !! chat_id = Some total.
Proof.
  intros Hp Hhit. eexists. split.
  - unfold save_transaction. unfold bind at 1, gets. unfold bind at 1.
    rewrite with_Database_no_faults by exact Hp.
    unfold bind at 1. rewrite db_execute_ok by reflexivity. simpl fst. simpl snd.
    unfold ret at 1. cbn [still_open cur_faults commit_fails no_faults].
    unfold bind at 1. rewrite get_total_hit with (total := total) by exact Hhit.
    reflexivity.
  - simpl. split; [reflexivity |].
    rewrite lookup_insert_eq. reflexivity.
Qed.

(** [reset_transactions] removes the rows of the user and nothing else of
    the tables or of the cache. *)
Lemma reset_transactions_rows (u : update) (w : world) :
  plan w = [] ->
  exists w',
    reset_transactions u w = (Ret tt, w') /\
    filter (fun r => txn_chat_id r = message_chat_id u) (transactions (db w')) = [] /\
    user_totals_cache w' = user_totals_cache w.
Proof.
  intros Hp. eexists. split.
  - unfold reset_transactions. unfold bind at 1.
    rewrite with_Database_no_faults by exact Hp.
    rewrite db_execute_ok by reflexivity. reflexivity.
  - simpl. split; [| reflexivity].
    induction (transactions (db w)) as [| r rows IH]; [reflexivity |].
    rewrite filter_cons. destruct (decide (txn_chat_id r <> message_chat_id u)).
    + rewrite filter_cons, decide_False by assumption. exact IH.
    + exact IH.
Qed.

(** ** The scenarios of the specification *)

Example total_of_new_user :
  fst (get_total 42 (fresh "2024-05-01")) = Ret (0 # 1)%Q.
Proof. vm_compute. reflexivity. Qed.

Example date_aggregates_same_day :
  fst (date_aggregates
         (run_ops [AddTransaction 1 (5 # 1); AddTransaction 2 (10 # 1)]
                  (fresh "2024-05-01")))
  = Ret [("2024-05-01", (15 # 1)%Q)].
Proof. vm_compute. reflexivity. Qed.

Example list_after_one_add :
  fst (list_transactions 42
         (snd (bind (add_user 42 "user")
                    (fun _ => save_transaction 42 (5 # 1) "food")
                    (fresh "2024-05-01"))))
  = Ret [Txn 1 (5 # 1) "2024-05-01" "food" 42].
Proof. vm_compute. reflexivity. Qed.

Example handler_replies_100_then_minus_30 :
  replies (snd (handle_message (Update 42 "-30")
                  (snd (handle_message (Update 42 "100") (fresh "2024-05-01")))))
  = [(42, AmountAdded (100 # 1) (100 # 1));
     (42, AmountAdded ((-30) # 1) (100 # 1))].
Proof. vm_compute. reflexivity. Qed.

Example chunks_of_5000_characters :
  map String.length (chunks (String.concat "" (repeat "ab" 2500)))
  = [4096%nat; 904%nat].
Proof. vm_compute. reflexivity. Qed.

(** X9: without planned failures, when every cached total agrees with the
    table, [get_total] returns equal values before and after the cache is
    cleared. *)
Lemma clear_cache_transparent (chat_id : Z) (w : world) :
  plan w = [] ->
  cache_consistent w ->
  exists v v',
    fst (get_total chat_id w) = Ret v /\
    fst (get_total chat_id (run_op ClearCache w)) = Ret v' /\
    v == v'.
Proof.
  intros Hp Hc.
  assert (Hafter : fst (get_total chat_id (run_op ClearCache w))
                   = Ret (sum_for_user chat_id (db w))).
  { simpl. rewrite get_total_miss; [reflexivity | exact Hp | apply lookup_empty]. }
  destruct (user_totals_cache w !! chat_id) as [total |] eqn:Hl.
  - exists total, (sum_for_user chat_id (db w)).
    rewrite (get_total_hit _ _ _ Hl). split; [reflexivity |].
    split; [exact Hafter | exact (Hc _ _ Hl)].
  - exists (sum_for_user chat_id (db w)), (sum_for_user chat_id (db w)).
    rewrite get_total_miss by assumption. split; [reflexivity |].
    split; [exact Hafter | reflexivity].
Qed.

(** ** What one operation does to the world, without planned failures *)

Lemma save_transaction_run
    (chat_id : Z) (amount : Q) (category : string) (w : world) :
  plan w = [] ->
  save_transaction chat_id amount category w
  = (Ret tt,
     let w1 := set_db (fst (insert_transaction amount (today w) category chat_id
                              (db w))) w in
     set_cache
       (<[chat_id := match user_totals_cache w !! chat_id with
                     | Some total => total
                     | None => sum_for_user chat_id (db w1)
                     end]> (user_totals_cache w)) w1).
Proof.
  intros Hp. unfold save_transaction. unfold bind at 1, gets. unfold bind at 1.
  rewrite with_Database_no_faults by exact Hp.
  unfold bind at 1. rewrite db_execute_ok by reflexivity. simpl fst. simpl snd.
  unfold ret at 1. cbn [still_open cur_faults commit_fails no_faults].
  unfold bind at 1.
  destruct (user_totals_cache w !! chat_id) as [total |] eqn:Hl.
  - rewrite get_total_hit with (total := total) by exact Hl. reflexivity.
  - rewrite get_total_miss by assumption.
    unfold cache_store, modify, set_cache. simpl.
    rewrite insert_insert_eq. reflexivity.
Qed.

Lemma reset_transactions_run (u : update) (w : world) :
  plan w = [] ->
  reset_transactions u w
  = (Ret tt,
     set_replies
       (replies w ++ [(message_chat_id u, Plain "All your transactions have been reset.")])
       (set_db (fst (delete_transactions (message_chat_id u) (db w))) w)).
Proof.
  intros Hp. unfold reset_transactions. unfold bind at 1.
  rewrite with_Database_no_faults by exact Hp.
  rewrite db_execute_ok by reflexivity. reflexivity.
Qed.

Lemma filter_other_chat (c c' : Z) (rows : list txn) :
  c' <> c ->
  filter (fun r => txn_chat_id r = c') (filter (fun r => txn_chat_id r <> c) rows)
  = filter (fun r => txn_chat_id r = c') rows.
Proof.
  intros Hne. induction rows as [| r rows IH]; [reflexivity |].
  rewrite (filter_cons (fun r => txn_chat_id r <> c)).
  rewrite (filter_cons (fun r => txn_chat_id r = c') r rows).
  destruct (decide (txn_chat_id r <> c)) as [Hr | Hr].
  - rewrite filter_cons. destruct (decide (txn_chat_id r = c')); rewrite IH; reflexivity.
  - rewrite decide_False by (intros Heq; apply Hr; congruence). exact IH.
Qed.

Lemma filter_same_chat (c : Z) (rows : list txn) :
  filter (fun r => txn_chat_id r = c) (filter (fun r => txn_chat_id r <> c) rows) = [].
Proof.
  induction rows as [| r rows IH]; [reflexivity |].
  rewrite (filter_cons (fun r => txn_chat_id r <> c)).
  destruct (decide (txn_chat_id r <> c)) as [Hr | Hr].
  - rewrite filter_cons, decide_False by exact Hr. exact IH.
  - exact IH.
Qed.

Lemma sum_for_user_no_rows (c : Z) (t : tables) :
  filter (fun r => txn_chat_id r = c) (transactions t) = [] ->
  sum_for_user c t = (0 # 1)%Q.
Proof.
  intros Hrows. unfold sum_for_user, select_sum, select_transactions. simpl.
  rewrite Hrows. reflexivity.
Qed.

(** ** Users *)

Lemma insert_or_ignore_user_known (chat_id : Z) (role r : string) (t : tables) :
  users t !! chat_id = Some r ->
  insert_or_ignore_user chat_id role t = (t, tt).
Proof. intros Hl. unfold insert_or_ignore_user. rewrite Hl. reflexivity. Qed.

(** X1: without planned failures, [add_user] leaves a chat that is already
    in the users table with the role it has, adds a new chat with the role
    given, touches no other user and no transaction; calling it again, with
    whatever role, changes nothing at all. *)
Theorem add_user_idempotent (chat_id : Z) (role role' : string) (w : world) :
  plan w = [] ->
  exists w1,
    add_user chat_id role w = (Ret tt, w1) /\
    users (db w1) !! chat_id = Some (default role (users (db w) !! chat_id)) /\
    (forall c, c <> chat_id -> users (db w1) !! c = users (db w) !! c) /\
    transactions (db w1) = transactions (db w) /\
    add_user chat_id role' w1 = (Ret tt, w1).
Proof.
  intros Hp. rewrite add_user_no_faults by exact Hp.
  set (w1 := set_db (fst (insert_or_ignore_user chat_id role (db w))) w).
  exists w1. split; [reflexivity |].
  assert (Hu : users (db w1) !! chat_id
               = Some (default role (users (db w) !! chat_id))).
  { unfold w1. simpl. rewrite insert_or_ignore_user_users.
    destruct (users (db w) !! chat_id) as [r |] eqn:Hl; simpl.
    - exact Hl.
    - apply lookup_insert_eq. }
  split; [exact Hu |]. split; [| split].
  - intros c Hc. unfold w1. simpl. rewrite insert_or_ignore_user_users.
    destruct (users (db w) !! chat_id); [reflexivity |].
    apply lookup_insert_ne. congruence.
  - unfold w1. simpl. apply insert_or_ignore_user_transactions.
  - rewrite add_user_no_faults by exact Hp.
    rewrite (insert_or_ignore_user_known _ role' _ _ Hu).
    apply (f_equal (pair (Ret tt))). exact (set_db_same w1).
Qed.

Lemma add_user_idempotent_witness :
  plan (fresh "2024-05-01") = [] /\
  exists w1,
    add_user 7 "user" (fresh "2024-05-01") = (Ret tt, w1) /\
    users (db w1) !! 7
    = Some (default "user" (users (db (fresh "2024-05-01")) !! 7)) /\
    (forall c, c <> 7 -> users (db w1) !! c = users (db (fresh "2024-05-01")) !! c) /\
    transactions (db w1) = transactions (db (fresh "2024-05-01")) /\
    add_user 7 "admin" w1 = (Ret tt, w1).
Proof.
  split; [reflexivity |].
  exact (add_user_idempotent 7 "user" "admin" (fresh "2024-05-01") eq_refl).
Defined.

(** ** Totals *)

(** X2: without planned failures, [get_total] returns a value, leaves it in
    the cache under the chat asked for, changes neither the tables nor the
    entry of any other chat, and asking again gives the same value without
    changing anything. *)
Theorem get_total_caches_result (chat_id : Z) (w : world) :
  plan w = [] ->
  exists v w1,
    get_total chat_id w = (Ret v, w1) /\
    user_totals_cache w1 !! chat_id = Some v /\
    (forall c, c <> chat_id -> user_totals_cache w1 !! c = user_totals_cache w !! c) /\
    db w1 = db w /\
    get_total chat_id w1 = (Ret v, w1).
Proof.
  intros Hp. destruct (user_totals_cache w !! chat_id) as [total |] eqn:Hl.
  - exists total, w. rewrite (get_total_hit _ _ _ Hl).
    split; [reflexivity |]. split; [exact Hl |].
    split; [reflexivity |]. split; reflexivity.
  - rewrite get_total_miss by assumption.
    eexists _, _. split; [reflexivity |].
    assert (Hc : user_totals_cache
              (set_cache (<[chat_id := sum_for_user chat_id (db w)]>
                            (user_totals_cache w)) w) !! chat_id
            = Some (sum_for_user chat_id (db w))) by apply lookup_insert_eq.
    split; [exact Hc |]. split; [| split].
    + intros c Hne. simpl. apply lookup_insert_ne. congruence.
    + reflexivity.
    + apply get_total_hit. exact Hc.
Qed.

Lemma get_total_caches_result_witness :
  plan (fresh "2024-05-01") = [] /\
  exists v w1,
    get_total 42 (fresh "2024-05-01") = (Ret v, w1) /\
    user_totals_cache w1 !! 42 = Some v /\
    (forall c, c <> 42 ->
       user_totals_cache w1 !! c = user_totals_cache (fresh "2024-05-01") !! c) /\
    db w1 = db (fresh "2024-05-01") /\
    get_total 42 w1 = (Ret v, w1).
Proof.
  split; [reflexivity |].
  exact (get_total_caches_result 42 (fresh "2024-05-01") eq_refl).
Defined.

Lemma filter_snoc_other (c c' : Z) (rows : list txn) (r : txn) :
  txn_chat_id r = c -> c' <> c ->
  filter (fun r => txn_chat_id r = c') (rows ++ [r])
  = filter (fun r => txn_chat_id r = c') rows.
Proof.
  intros Hr Hne. rewrite filter_app, filter_cons, filter_nil.
  rewrite decide_False by congruence. apply app_nil_r.
Qed.

(** X6: without planned failures, [save_transaction] for one chat appends
    exactly one row, dated today, and leaves the rows, the total in the table
    and the cache entry of every other chat, and the users table, as they
    were. *)
Theorem save_transaction_other_users
    (chat_id other : Z) (amount : Q) (category : string) (w : world) :
  plan w = [] ->
  other <> chat_id ->
  exists w',
    save_transaction chat_id amount category w = (Ret tt, w') /\
    transactions (db w')
    = transactions (db w)
      ++ [Txn (last_rowid (db w) + 1) amount (today w) category chat_id] /\
    filter (fun r => txn_chat_id r = other) (transactions (db w'))
    = filter (fun r => txn_chat_id r = other) (transactions (db w)) /\
    sum_for_user other (db w') = sum_for_user other (db w) /\
    user_totals_cache w' !! other = user_totals_cache w !! other /\
    users (db w') = users (db w).
Proof.
  intros Hp Hne. rewrite save_transaction_run by exact Hp.
  eexists. split; [reflexivity |]. cbv zeta. simpl.
  assert (Hf : filter (fun r => txn_chat_id r = other)
                 (transactions (db w)
                  ++ [Txn (last_rowid (db w) + 1) amount (today w) category chat_id])
               = filter (fun r => txn_chat_id r = other) (transactions (db w))).
  { apply (filter_snoc_other chat_id); [reflexivity | exact Hne]. }
  split; [reflexivity |]. split; [exact Hf |]. split; [| split].
  - unfold sum_for_user, select_sum, select_transactions. simpl. rewrite Hf.
    reflexivity.
  - apply lookup_insert_ne. congruence.
  - reflexivity.
Qed.

Lemma save_transaction_other_users_witness :
  plan (fresh "2024-05-01") = [] /\
  (1 : Z) <> 42 /\
  exists w',
    save_transaction 42 (100 # 1) "general" (fresh "2024-05-01") = (Ret tt, w') /\
    transactions (db w')
    = transactions (db (fresh "2024-05-01"))
      ++ [Txn (last_rowid (db (fresh "2024-05-01")) + 1) (100 # 1)
              (today (fresh "2024-05-01")) "general" 42] /\
    filter (fun r => txn_chat_id r = 1) (transactions (db w'))
    = filter (fun r => txn_chat_id r = 1) (transactions (db (fresh "2024-05-01"))) /\
    sum_for_user 1 (db w') = sum_for_user 1 (db (fresh "2024-05-01")) /\
    user_totals_cache w' !! 1 = user_totals_cache (fresh "2024-05-01") !! 1 /\
    users (db w') = users (db (fresh "2024-05-01")).
Proof.
  assert (Hne : (1 : Z) <> 42) by lia.
  split; [reflexivity |]. split; [exact Hne |].
  exact (save_transaction_other_users 42 1 (100 # 1) "general"
           (fresh "2024-05-01") eq_refl Hne).
Defined.

(** X7: without planned failures, [reset_transactions] deletes the rows of
    the chat that asked and only those: the rows of every other chat stay, in
    their order; the users table and the totals cache are not touched, and
    the chat is told that its transactions have been reset. *)
Theorem reset_transactions_only_own_rows (u : update) (w : world) :
  plan w = [] ->
  exists w',
    reset_transactions u w = (Ret tt, w') /\
    filter (fun r => txn_chat_id r = message_chat_id u) (transactions (db w')) = [] /\
    (forall other, other <> message_chat_id u ->
       filter (fun r => txn_chat_id r = other) (transactions (db w'))
       = filter (fun r => txn_chat_id r = other) (transactions (db w))) /\
    users (db w') = users (db w) /\
    user_totals_cache w' = user_totals_cache w /\
    replies w' = replies w ++
      [(message_chat_id u, Plain "All your transactions have been reset.")].
Proof.
  intros Hp. rewrite reset_transactions_run by exact Hp.
  eexists. split; [reflexivity |]. simpl. split; [| split].
  - apply filter_same_chat.
  - intros other Hne. apply filter_other_chat. exact Hne.
  - repeat split.
Qed.

Lemma reset_transactions_only_own_rows_witness :
  let w := run_ops [AddTransaction 1 (5 # 1); AddTransaction 2 (10 # 1)]
                   (fresh "2024-05-01") in
  let u := Update 1 "/reset" in
  plan w = [] /\
  exists w',
    reset_transactions u w = (Ret tt, w') /\
    filter (fun r => txn_chat_id r = message_chat_id u) (transactions (db w')) = [] /\
    (forall other, other <> message_chat_id u ->
       filter (fun r => txn_chat_id r = other) (transactions (db w'))
       = filter (fun r => txn_chat_id r = other) (transactions (db w))) /\
    users (db w') = users (db w) /\
    user_totals_cache w' = user_totals_cache w /\
    replies w' = replies w ++
      [(message_chat_id u, Plain "All your transactions have been reset.")].
Proof.
  cbv zeta. split; [reflexivity |].
  apply (reset_transactions_only_own_rows (Update 1 "/reset")). reflexivity.
Defined.

(** X8: without planned failures, [clear_cache] empties the cache and
    leaves the tables alone, and the [get_total] that follows returns the sum
    of the rows of the chat in the table, whatever the cache held before. *)
Theorem clear_cache_then_get_total (u : update) (chat_id : Z) (w : world) :
  plan w = [] ->
  exists w1,
    clear_cache u w = (Ret tt, w1) /\
    user_totals_cache w1 = ∅ /\
    db w1 = db w /\
    replies w1 = replies w ++ [(message_chat_id u, Plain "Cache cleared.")] /\
    fst (get_total chat_id w1) = Ret (sum_for_user chat_id (db w)).
Proof.
  intros Hp. eexists. split; [reflexivity |].
  split; [reflexivity |]. split; [reflexivity |]. split; [reflexivity |].
  rewrite get_total_miss; [reflexivity | exact Hp | apply lookup_empty].
Qed.

Lemma clear_cache_then_get_total_witness :
  let w := run_ops [AddTransaction 42 (100 # 1); AddTransaction 42 ((-30) # 1)]
                   (fresh "2024-05-01") in
  let u := Update 9 "/clear_cache" in
  plan w = [] /\
  exists w1,
    clear_cache u w = (Ret tt, w1) /\
    user_totals_cache w1 = ∅ /\
    db w1 = db w /\
    replies w1 = replies w ++ [(message_chat_id u, Plain "Cache cleared.")] /\
    fst (get_total 42 w1) = Ret (sum_for_user 42 (db w)).
Proof.
  cbv zeta. split; [reflexivity |].
  apply (clear_cache_then_get_total (Update 9 "/clear_cache") 42). reflexivity.
Defined.

(** X10: without planned failures, after a chat resets its transactions and
    the cache is cleared, [get_total] for that chat returns 0, whatever was
    stored and cached before. *)
Theorem reset_then_clear_cache_total_zero (u admin : update) (w : world) :
  plan w = [] ->
  fst (get_total (message_chat_id u)
         (snd (clear_cache admin (snd (reset_transactions u w)))))
  = Ret (0 # 1)%Q.
Proof.
  intros Hp. rewrite reset_transactions_run by exact Hp.
  rewrite get_total_miss; [| exact Hp | apply lookup_empty].
  simpl. rewrite sum_for_user_no_rows; [reflexivity |].
  simpl. apply filter_same_chat.
Qed.

Lemma reset_then_clear_cache_total_zero_witness :
  let w := run_ops [AddTransaction 42 (100 # 1); AddTransaction 42 ((-30) # 1)]
                   (fresh "2024-05-01") in
  plan w = [] /\
  fst (get_total (message_chat_id (Update 42 "/reset"))
         (snd (clear_cache (Update 9 "/clear_cache")
                 (snd (reset_transactions (Update 42 "/reset") w)))))
  = Ret (0 # 1)%Q.
Proof.
  cbv zeta. split; [reflexivity |].
  apply (reset_then_clear_cache_total_zero (Update 42 "/reset")). reflexivity.
Defined.

Lemma get_total_no_rows_witness :
  let w := snd (add_transaction 1 (5 # 1) (fresh "2024-05-01")) in
  plan w = [] /\
  user_totals_cache w !! 42 = None /\
  filter (fun r => txn_chat_id r = 42) (transactions (db w)) = [] /\
  fst (get_total 42 w) = Ret (0 # 1)%Q.
Proof.
  cbv zeta.
  assert (Hp : plan (snd (add_transaction 1 (5 # 1) (fresh "2024-05-01"))) = [])
    by reflexivity.
  assert (Hm : user_totals_cache (snd (add_transaction 1 (5 # 1) (fresh "2024-05-01")))
               !! 42 = None) by (vm_compute; reflexivity).
  assert (Hr : filter (fun r => txn_chat_id r = 42)
                 (transactions (db (snd (add_transaction 1 (5 # 1)
                                            (fresh "2024-05-01"))))) = [])
    by (vm_compute; reflexivity).
  split; [exact Hp |]. split; [exact Hm |]. split; [exact Hr |].
  exact (get_total_no_rows 42 _ Hp Hm Hr).
Defined.

Lemma save_transaction_uncached_witness :
  let w := fresh "2024-05-01" in
  plan w = [] /\
  user_totals_cache w !! 42 = None /\
  exists w',
    save_transaction 42 (100 # 1) "general" w = (Ret tt, w') /\
    transactions (db w')
    = transactions (db w)
      ++ [Txn (last_rowid (db w) + 1) (100 # 1) (today w) "general" 42] /\
    user_totals_cache w' !! 42 = Some (sum_for_user 42 (db w')).
Proof.
  cbv zeta. split; [reflexivity |]. split; [reflexivity |].
  exact (save_transaction_uncached 42 (100 # 1) "general" (fresh "2024-05-01")
           eq_refl eq_refl).
Defined.

Lemma save_transaction_cached_witness :
  let w := snd (add_transaction 42 (100 # 1) (fresh "2024-05-01")) in
  plan w = [] /\
  user_totals_cache w !! 42 = Some (100 # 1)%Q /\
  exists w',
    save_transaction 42 ((-30) # 1) "general" w = (Ret tt, w') /\
    transactions (db w')
    = transactions (db w)
      ++ [Txn (last_rowid (db w) + 1) ((-30) # 1) (today w) "general" 42] /\
    user_totals_cache w' !! 42 = Some (100 # 1)%Q.
Proof.
  cbv zeta.
  assert (Hp : plan (snd (add_transaction 42 (100 # 1) (fresh "2024-05-01"))) = [])
    by reflexivity.
  assert (Hc : user_totals_cache (snd (add_transaction 42 (100 # 1)
                                         (fresh "2024-05-01"))) !! 42
               = Some (100 # 1)%Q) by (vm_compute; reflexivity).
  split; [exact Hp |]. split; [exact Hc |].
  exact (save_transaction_cached 42 ((-30) # 1) "general" (100 # 1) _ Hp Hc).
Defined.

Lemma clear_cache_transparent_witness :
  let w := World (Tables (<[42 := "user"]> ∅)
                         [Txn 1 (100 # 1) "2024-05-01" "general" 42] 1)
                 (<[42 := (100 # 1)%Q]> ∅) None "2024-05-01" []
                 (fun _ _ => false) [] [] [] [] in
  plan w = [] /\
  cache_consistent w /\
  exists v v',
    fst (get_total 42 w) = Ret v /\
    fst (get_total 42 (run_op ClearCache w)) = Ret v' /\
    v == v'.
Proof.
  cbv zeta.
  set (w := World (Tables (<[42 := "user"]> ∅)
                         [Txn 1 (100 # 1) "2024-05-01" "general" 42] 1)
                 (<[42 := (100 # 1)%Q]> ∅) None "2024-05-01" []
                 (fun _ _ => false) [] [] [] []).
  assert (Hp : plan w = []) by reflexivity.
  assert (Hc : cache_consistent w).
  { intros c v Hl. unfold w in Hl. cbn [user_totals_cache] in Hl.
    apply lookup_insert_Some in Hl as [[<- <-] | [_ Hl]].
    - vm_compute. reflexivity.
    - rewrite lookup_empty in Hl. discriminate Hl. }
  split; [exact Hp |]. split; [exact Hc |].
  exact (clear_cache_transparent 42 w Hp Hc).
Defined.

(** ** Messages *)

(** X11: without planned failures, a message whose stripped text matches the
    number pattern is saved as one row for the sender (the amount read from
    the text, category "general", dated today), the sender is in the users
    table, the reply shows the amount and the cached total of the sender, and
    the handler then ends with NameError: [notify_group] reaches a global
    [bot] that the module never binds. *)
Theorem handle_message_accepted (u : update) (g : string) (w : world) :
  plan w = [] ->
  re_match_number (strip (message_text u)) = Some g ->
  exists total w',
    handle_message u w = (Raise NameError, w') /\
    transactions (db w')
    = transactions (db w)
      ++ [Txn (last_rowid (db w) + 1) (float g) (today w) "general"
              (message_chat_id u)] /\
    is_Some (users (db w') !! message_chat_id u) /\
    user_totals_cache w' !! message_chat_id u = Some total /\
    replies w' = replies w ++ [(message_chat_id u, AmountAdded (float g) total)].
Proof.
  intros Hp Hm. unfold handle_message. unfold bind at 1.
  rewrite add_user_no_faults by exact Hp. rewrite Hm.
  set (w1 := set_db (fst (insert_or_ignore_user (message_chat_id u) "user" (db w))) w).
  unfold bind at 1. rewrite save_transaction_run by exact Hp. cbv zeta.
  set (total := match user_totals_cache w1 !! message_chat_id u with
                | Some t => t
                | None => sum_for_user (message_chat_id u)
                            (db (set_db (fst (insert_transaction (float g) (today w1)
                                   "general" (message_chat_id u) (db w1))) w1))
                end).
  set (w2 := set_cache (<[message_chat_id u := total]> (user_totals_cache w1))
               (set_db (fst (insert_transaction (float g) (today w1) "general"
                               (message_chat_id u) (db w1))) w1)).
  assert (Hc : user_totals_cache w2 !! message_chat_id u = Some total)
    by apply lookup_insert_eq.
  unfold bind at 1. rewrite (get_total_hit _ _ _ Hc).
  exists total. eexists. split; [reflexivity |].
  simpl. split; [| split; [| split; [exact Hc | reflexivity]]].
  - rewrite insert_or_ignore_user_transactions, insert_or_ignore_user_last_rowid.
    reflexivity.
  - apply insert_or_ignore_user_present.
Qed.

Lemma handle_message_accepted_witness :
  let w := fresh "2024-05-01" in
  let u := Update 42 " +12.5 " in
  plan w = [] /\
  re_match_number (strip (message_text u)) = Some "+12.5" /\
  exists total w',
    handle_message u w = (Raise NameError, w') /\
    transactions (db w')
    = transactions (db w)
      ++ [Txn (last_rowid (db w) + 1) (float "+12.5") (today w) "general"
              (message_chat_id u)] /\
    is_Some (users (db w') !! message_chat_id u) /\
    user_totals_cache w' !! message_chat_id u = Some total /\
    replies w' = replies w ++ [(message_chat_id u, AmountAdded (float "+12.5") total)].
Proof.
  cbv zeta.
  assert (Hm : re_match_number (strip (message_text (Update 42 " +12.5 ")))
               = Some "+12.5") by (vm_compute; reflexivity).
  split; [reflexivity |]. split; [exact Hm |].
  exact (handle_message_accepted (Update 42 " +12.5 ") "+12.5"
           (fresh "2024-05-01") eq_refl Hm).
Defined.

Lemma strip_command (rest : string) :
  exists r, strip (String "/" rest) = String "/" r.
Proof.
  unfold strip. change (lstrip (String "/" rest)) with (String "/" rest).
  simpl. destruct (rstrip rest); eauto.
Qed.

Lemma re_match_number_command (r : string) : re_match_number (String "/" r) = None.
Proof. reflexivity. Qed.

(** X12: without planned failures, a message whose text begins with a slash
    (a command, such as the /start that the program routes to this handler)
    is never taken for a number: the sender gets the rejection reply and is
    in the users table afterwards, and no transaction and no cache entry
    changes. *)
Theorem handle_message_rejects_commands (chat_id : Z) (rest : string) (w : world) :
  plan w = [] ->
  exists w',
    handle_message (Update chat_id (String "/" rest)) w = (Ret tt, w') /\
    replies w' = replies w ++
      [(chat_id, Plain "Please send a valid number starting with + or -.")] /\
    transactions (db w') = transactions (db w) /\
    user_totals_cache w' = user_totals_cache w /\
    is_Some (users (db w') !! chat_id).
Proof.
  intros Hp. unfold handle_message. unfold bind at 1.
  rewrite add_user_no_faults by exact Hp.
  destruct (strip_command rest) as [r Hr].
  cbn [message_text message_chat_id]. rewrite Hr.
  rewrite re_match_number_command.
  eexists. split; [reflexivity |]. simpl.
  split; [reflexivity |]. split; [| split; [reflexivity |]].
  - apply insert_or_ignore_user_transactions.
  - apply insert_or_ignore_user_present.
Qed.

Lemma handle_message_rejects_commands_witness :
  plan (fresh "2024-05-01") = [] /\
  exists w',
    handle_message (Update 42 (String "/" "start 100")) (fresh "2024-05-01")
    = (Ret tt, w') /\
    replies w' = replies (fresh "2024-05-01") ++
      [(42, Plain "Please send a valid number starting with + or -.")] /\
    transactions (db w') = transactions (db (fresh "2024-05-01")) /\
    user_totals_cache w' = user_totals_cache (fresh "2024-05-01") /\
    is_Some (users (db w') !! 42).
Proof.
  split; [reflexivity |].
  exact (handle_message_rejects_commands 42 "start 100" (fresh "2024-05-01") eq_refl).
Defined.

(** ** The amount read from a text *)

Lemma span_digits_app (s : string) :
  fst (span_digits s) +:+ snd (span_digits s) = s.
Proof.
  induction s as [| c s IH]; [reflexivity |].
  simpl. destruct (is_digit c); [| reflexivity].
  destruct (span_digits s) as [ds rest]. simpl in IH |- *.
  change (String c (ds +:+ rest) = String c s). rewrite IH. reflexivity.
Qed.

Lemma span_digits_all (s : string) :
  string_forall is_digit (fst (span_digits s)) = true.
Proof.
  induction s as [| c s IH]; [reflexivity |].
  simpl. destruct (is_digit c) eqn:Hc; [| reflexivity].
  destruct (span_digits s) as [ds rest]. simpl in *. rewrite Hc. exact IH.
Qed.

Lemma string_forall_app (p : ascii -> bool) (a b : string) :
  string_forall p a = true -> string_forall p b = true ->
  string_forall p (a +:+ b) = true.
Proof.
  intros Ha Hb. induction a as [| c a IH]; [exact Hb |].
  simpl in Ha. apply andb_prop in Ha as [Hc Ha].
  change (p c && string_forall p (a +:+ b) = true).
  rewrite Hc. exact (IH Ha).
Qed.

Lemma digit_value_nonneg (c : ascii) : is_digit c = true -> 0 <= digit_value c.
Proof.
  unfold is_digit, digit_value. intros H.
  apply andb_prop in H as [H _]. apply N.leb_le in H. lia.
Qed.

Lemma digits_value_nonneg (s : string) (acc : Z) :
  string_forall is_digit s = true -> 0 <= acc -> 0 <= digits_value acc s.
Proof.
  revert acc. induction s as [| c s IH]; intros acc Hs Hacc; [exact Hacc |].
  simpl in Hs. apply andb_prop in Hs as [Hc Hs]. simpl.
  apply IH; [exact Hs |]. pose proof (digit_value_nonneg c Hc). lia.
Qed.

Lemma opt_sign_cases (s : string) :
  (exists r, s = String "+" r /\ opt_sign s = ("+", r)) \/
  (exists r, s = String "-" r /\ opt_sign s = ("-", r)) \/
  (opt_sign s = ("", s) /\ forall r, s <> String "-" r).
Proof.
  destruct s as [| c r].
  - right. right. split; [reflexivity | discriminate].
  - destruct c as [[] [] [] [] [] [] [] []];
      first [ left; exists r; split; reflexivity
            | right; left; exists r; split; reflexivity
            | right; right; split; [reflexivity | discriminate] ].
Qed.

Lemma opt_sign_digit (c : ascii) (r : string) :
  is_digit c = true -> opt_sign (String c r) = ("", String c r).
Proof.
  destruct c as [[] [] [] [] [] [] [] []]; intros H;
    first [ discriminate H | reflexivity ].
Qed.

Lemma span_digits_head (s : string) (c : ascii) (ds rest : string) :
  span_digits s = (String c ds, rest) -> is_digit c = true.
Proof.
  destruct s as [| a r]; simpl; [discriminate |].
  destruct (is_digit a) eqn:Ha; [| discriminate].
  destruct (span_digits r). intros H. injection H as <- _ _. exact Ha.
Qed.

Lemma at_end_cases (s : string) :
  at_end s = true -> s = "" \/ s = String "010" "".
Proof.
  destruct s as [| c [| c' r]]; simpl; intros H; [left; reflexivity | | discriminate].
  right. apply N.eqb_eq in H. unfold code in H.
  rewrite <- (ascii_N_embedding c), H. reflexivity.
Qed.

(** The amount is never negative unless the text begins with a minus sign,
    and never positive when it does. *)
Lemma float_sign (s : string) :
  (fst (opt_sign s) = "-" -> (float s <= 0)%Q) /\
  (fst (opt_sign s) <> "-" -> (0 <= float s)%Q).
Proof.
  unfold float. destruct (opt_sign s) as [sg s1]. simpl fst.
  pose proof (span_digits_all s1) as Hds.
  destruct (span_digits s1) as [ds s2]. simpl in Hds.
  set (fs := match s2 with
             | String "." s3 => fst (span_digits s3)
             | _ => ""
             end).
  assert (Hfs : string_forall is_digit fs = true).
  { unfold fs. destruct s2 as [| c s3]; [reflexivity |].
    destruct c as [[] [] [] [] [] [] [] []];
      first [ apply span_digits_all | reflexivity ]. }
  pose proof (digits_value_nonneg (ds +:+ fs) 0
                (string_forall_app _ _ _ Hds Hfs) ltac:(lia)) as Hn.
  split; intros Hsg.
  - subst sg. simpl. unfold Qle. simpl. lia.
  - destruct (String.eqb sg "-") eqn:He.
    + apply String.eqb_eq in He. contradiction.
    + unfold Qle. simpl. lia.
Qed.

Lemma re_match_number_group (s g : string) :
  re_match_number s = Some g ->
  fst (opt_sign g) = fst (opt_sign s) /\
  exists tail, s = g +:+ tail /\ (tail = "" \/ tail = String "010" "").
Proof.
  unfold re_match_number.
  pose proof (opt_sign_cases s) as Hsign.
  assert (Hsplit : fst (opt_sign s) +:+ snd (opt_sign s) = s).
  { destruct Hsign as [(r & -> & ->) | [(r & -> & ->) | [-> _]]]; reflexivity. }
  assert (Hsg : fst (opt_sign s) = "+" \/ fst (opt_sign s) = "-"
                \/ fst (opt_sign s) = "").
  { destruct Hsign as [(r & _ & ->) | [(r & _ & ->) | [-> _]]]; auto. }
  destruct (opt_sign s) as [sg s1]. simpl in Hsplit, Hsg. clear Hsign.
  pose proof (span_digits_app s1) as Hs1.
  destruct (span_digits s1) as [ds s2] eqn:Hd. simpl in Hs1.
  destruct ds as [| c ds]; [discriminate |].
  pose proof (span_digits_head _ _ _ _ Hd) as Hc.
  assert (Hhead : forall x, fst (opt_sign (sg +:+ String c x)) = sg).
  { intros x. destruct Hsg as [-> | [-> | ->]]; try reflexivity.
    change ("" +:+ String c x) with (String c x).
    rewrite (opt_sign_digit c x Hc). reflexivity. }
  assert (Hfrac : forall s3,
            s2 = String "." s3 ->
            match span_digits s3 with
            | (fs, s4) =>
                match fs with
                | "" => None
                | _ => if at_end s4 then Some (sg +:+ String c ds +:+ "." +:+ fs)
                       else None
                end
            end = Some g ->
            fst (opt_sign g) = sg /\
            exists tail, s = g +:+ tail /\ (tail = "" \/ tail = String "010" "")).
  { intros s3 Hs2 H. pose proof (span_digits_app s3) as Hs3.
    destruct (span_digits s3) as [fs s4]. simpl in Hs3.
    destruct fs as [| f fs]; [discriminate |].
    destruct (at_end s4) eqn:He; [| discriminate].
    injection H as <-. split; [apply Hhead |].
    exists s4. split; [| exact (at_end_cases _ He)].
    rewrite <- Hsplit, <- Hs1, Hs2, <- Hs3.
    rewrite !append_assoc. reflexivity. }
  assert (Hint : (if at_end s2 then Some (sg +:+ String c ds) else None) = Some g ->
                 fst (opt_sign g) = sg /\
                 exists tail, s = g +:+ tail /\ (tail = "" \/ tail = String "010" "")).
  { intros H. destruct (at_end s2) eqn:He; [| discriminate].
    injection H as <-. split; [apply Hhead |].
    exists s2. split; [| exact (at_end_cases _ He)].
    rewrite <- Hsplit, <- Hs1, !append_assoc. reflexivity. }
  destruct s2 as [| d s3]; [exact Hint |].
  destruct d as [[] [] [] [] [] [] [] []];
    first [ exact (Hfrac s3 eq_refl) | exact Hint ].
Qed.

(** X13: when [re.match] accepts a text, the matched group is the text
    itself, up to one newline at its end, and the amount read from the group
    has the sign of the text: it is at most 0 when the text begins with a
    minus sign and at least 0 otherwise. *)
Theorem amount_sign_follows_text (s g : string) :
  re_match_number s = Some g ->
  (exists tail, s = g +:+ tail /\ (tail = "" \/ tail = String "010" "")) /\
  ((exists r, s = String "-" r) -> (float g <= 0)%Q) /\
  ((forall r, s <> String "-" r) -> (0 <= float g)%Q).
Proof.
  intros Hm. destruct (re_match_number_group s g Hm) as [Hsg Htail].
  destruct (float_sign g) as [Hneg Hpos]. rewrite Hsg in Hneg, Hpos.
  split; [exact Htail |]. split.
  - intros [r ->]. apply Hneg. reflexivity.
  - intros Hs. apply Hpos.
    destruct (opt_sign_cases s) as [(r & _ & ->) | [(r & -> & _) | [-> _]]].
    + discriminate.
    + exfalso. exact (Hs r eq_refl).
    + discriminate.
Qed.

Lemma amount_sign_follows_text_witness :
  re_match_number "-0.25" = Some "-0.25" /\
  (exists tail, "-0.25" = "-0.25" +:+ tail /\ (tail = "" \/ tail = String "010" "")) /\
  ((exists r, "-0.25" = String "-" r) -> (float "-0.25" <= 0)%Q) /\
  ((forall r, "-0.25" <> String "-" r) -> (0 <= float "-0.25")%Q).
Proof.
  assert (Hm : re_match_number "-0.25" = Some "-0.25") by (vm_compute; reflexivity).
  split; [exact Hm |].
  exact (amount_sign_follows_text "-0.25" "-0.25" Hm).
Defined.

(** ** The shape of a broadcast *)

Lemma substring_length (s : string) (n m : nat) :
  String.length (substring n m s) = Nat.min m (String.length s - n).
Proof.
  revert n m. induction s as [| c s IH]; intros [| n] [| m]; simpl; try lia.
  - rewrite (IH 0%nat m), Nat.sub_0_r. reflexivity.
  - rewrite (IH n 0%nat). reflexivity.
  - rewrite (IH n (S m)). destruct (String.length s - n)%nat; reflexivity.
Qed.

Lemma pieces_inside (len n k : nat) :
  (0 < n)%nat -> (k < (len + n - 1) / n)%nat -> (k * n < len)%nat.
Proof.
  intros Hn Hk.
  pose proof (Nat.div_mod_eq (len + n - 1) n) as Hd.
  pose proof (Nat.mod_upper_bound (len + n - 1) n ltac:(lia)) as Hm.
  nia.
Qed.

(** X14: the chunks of a broadcast text are never empty and never longer
    than 4096 characters, every chunk but the last has exactly 4096
    characters, and an empty text has no chunk at all. *)
Theorem chunks_shape (message : string) :
  chunks "" = [] /\
  length (chunks message)
  = ((String.length message + MAX_MSG_LEN - 1) / MAX_MSG_LEN)%nat /\
  forall k chunk,
    chunks message !! k = Some chunk ->
    (0 < String.length chunk <= MAX_MSG_LEN)%nat /\
    ((S k < length (chunks message))%nat -> String.length chunk = MAX_MSG_LEN).
Proof.
  split; [reflexivity |].
  assert (Hn : (0 < MAX_MSG_LEN)%nat) by (unfold MAX_MSG_LEN; lia).
  rewrite chunks_pieces. rewrite length_map, length_seq.
  split; [reflexivity |].
  intros k chunk Hl. rewrite list_lookup_fmap in Hl.
  destruct (seq 0 ((String.length message + MAX_MSG_LEN - 1) / MAX_MSG_LEN) !! k)
    as [i |] eqn:Hi; [| discriminate].
  apply lookup_seq in Hi as [-> Hk]. simpl in Hl. injection Hl as <-.
  rewrite substring_length.
  pose proof (pieces_inside _ _ _ Hn Hk) as Hin.
  split; [lia |].
  intros Hnext. pose proof (pieces_inside _ _ _ Hn Hnext) as Hfull. lia.
Qed.

Lemma same_ledger_refl (w : world) : same_ledger w w.
Proof. repeat split. Qed.

Lemma same_ledger_trans (w1 w2 w3 : world) :
  same_ledger w1 w2 -> same_ledger w2 w3 -> same_ledger w1 w3.
Proof.
  intros (Ha & Hb & Hc & Hd) (Ha' & Hb' & Hc' & Hd').
  repeat split; congruence.
Qed.

Lemma send_chunk_ledger (c : Z) (chunk : string) (w : world) :
  same_ledger w (snd (send_chunk c chunk w)).
Proof.
  unfold send_chunk. destruct (send_fails w c chunk); repeat split.
Qed.

Lemma send_chunks_ledger (c : Z) (cs : list string) (w : world) :
  same_ledger w (snd (for_each (fun chunk => send_chunk c chunk) cs w)).
Proof.
  revert w. induction cs as [| chunk cs IH]; intros w; [apply same_ledger_refl |].
  rewrite for_each_cons.
  pose proof (send_chunk_ledger c chunk w) as H1.
  destruct (send_chunk_sent c chunk w) as (w1 & Hc & _).
  rewrite Hc in H1 |- *. simpl in H1.
  pose proof (IH w1) as H2.
  destruct (for_each (fun chunk => send_chunk c chunk) cs w1) as [[r | e] w2];
    simpl in H2 |- *; exact (same_ledger_trans _ _ _ H1 H2).
Qed.

Lemma send_all_ledger (cs : list string) (us : list Z) (w : world) :
  same_ledger w
    (snd (for_each (fun user => for_each (fun chunk => send_chunk user chunk) cs)
                   us w)).
Proof.
  revert w. induction us as [| user us IH]; intros w; [apply same_ledger_refl |].
  rewrite for_each_cons.
  pose proof (send_chunks_ledger user cs w) as H1.
  destruct (send_chunks_sent user cs w) as (r1 & w1 & Hc & _).
  rewrite Hc in H1 |- *. simpl in H1.
  pose proof (IH w1) as H2.
  destruct (for_each (fun user => for_each (fun chunk => send_chunk user chunk) cs)
                     us w1) as [[r | e] w2];
    simpl in H2 |- *; exact (same_ledger_trans _ _ _ H1 H2).
Qed.

Lemma length_flat_map_const {A B} (f : A -> list B) (l : list A) (n : nat) :
  (forall x, length (f x) = n) -> length (flat_map f l) = (length l * n)%nat.
Proof.
  intros Hf. induction l as [| x l IH]; [reflexivity |].
  simpl. rewrite length_app, Hf, IH. reflexivity.
Qed.

(** X15: without planned failures, a broadcast with a message changes
    neither the tables nor the totals cache; it makes one [send_message] call
    per user and chunk, whether or not the platform refuses some of them, and
    always ends by telling the sender that the broadcast was sent. *)
Theorem broadcast_message_effects (u : update) (args : list string) (w : world) :
  plan w = [] ->
  args <> [] ->
  exists w',
    broadcast_message u args w = (Ret tt, w') /\
    db w' = db w /\
    user_totals_cache w' = user_totals_cache w /\
    replies w' = replies w ++ [(message_chat_id u, Plain "Broadcast sent.")] /\
    length (sent w')
    = (length (sent w)
       + size (users (db w)) * length (chunks (broadcast_text args)))%nat.
Proof.
  intros Hp Hargs. destruct args as [| a args]; [congruence |].
  set (m := broadcast_text (a :: args)).
  set (us := snd (select_user_ids (db w))).
  destruct (send_all_sent (chunks m) us w) as (r & w1 & Hloop & Hsent).
  pose proof (send_all_ledger (chunks m) us w) as Hled.
  rewrite Hloop in Hled. simpl in Hled. destruct Hled as (Hdb & Hcache & Hrep & _).
  exists (set_replies (replies w1 ++ [(message_chat_id u, Plain "Broadcast sent.")]) w1).
  split; [| split; [exact Hdb | split; [exact Hcache | split]]].
  - unfold broadcast_message. unfold bind at 1.
    change (with_Database (fun db => db_execute db select_user_ids) w)
      with (with_Database (fun db => db_execute db
              (fun t => (t, snd (select_user_ids t)))) w).
    rewrite (query_no_faults (fun t => snd (select_user_ids t)) w Hp).
    unfold bind at 1. fold (broadcast_text (a :: args)). fold m. fold us.
    rewrite Hloop. reflexivity.
  - simpl. rewrite Hrep. reflexivity.
  - simpl sent. rewrite Hsent, length_app. f_equal.
    rewrite (length_flat_map_const _ us (length (chunks m)))
      by (intros x; apply length_map).
    unfold us. simpl. rewrite length_map, length_map_to_list. reflexivity.
Qed.

Lemma broadcast_message_effects_witness :
  let w := World (Tables (<[1 := "user"]> (<[2 := "user"]> ∅)) [] 0) ∅ None
                 "2024-05-01" [] (fun c _ => Z.eqb c 1) [] [] [] [] in
  let u := Update 1 "/broadcast hello all" in
  let args := ["hello"; "all"] in
  plan w = [] /\
  args <> [] /\
  exists w',
    broadcast_message u args w = (Ret tt, w') /\
    db w' = db w /\
    user_totals_cache w' = user_totals_cache w /\
    replies w' = replies w ++ [(message_chat_id u, Plain "Broadcast sent.")] /\
    length (sent w')
    = (length (sent w)
       + size (users (db w)) * length (chunks (broadcast_text args)))%nat.
Proof.
  cbv zeta.
  assert (Ha : ["hello"; "all"] <> []) by discriminate.
  split; [reflexivity |]. split; [exact Ha |].
  apply (broadcast_message_effects (Update 1 "/broadcast hello all")
           ["hello"; "all"]); [reflexivity | exact Ha].
Defined.

(** ** Fitting and predicting *)


Lemma for_each_toordinal_bad (rows : list (string * Q)) (w : world) (bad : string * Q) :
  bad ∈ rows ->
  strptime_toordinal (fst bad) = None ->
  for_each (fun row => toordinal (fst row)) rows w = (Raise ValueError, w).
Proof.
  intros Hin Hbad. induction rows as [| row rows IH].
  - apply elem_of_nil in Hin. contradiction.
  - rewrite for_each_cons. unfold toordinal at 1.
    destruct (strptime_toordinal (fst row)) as [n |] eqn:Hn; [| reflexivity].
    unfold ret at 1.
    apply elem_of_cons in Hin as [-> | Hin]; [congruence |].
    rewrite (IH Hin). reflexivity.
Qed.

Lemma train_model_query (w : world) :
  plan w = [] ->
  with_Database (fun db => db_execute db select_date_sums) w
  = (Ret (group_by_date (transactions (db w))), w).
Proof.
  intros Hp.
  exact (query_no_faults (fun t => group_by_date (transactions t)) w Hp).
Qed.



(** X17: without planned failures, when some stored date is not a
    well-formed date, [train_model] raises ValueError and changes nothing:
    the model file is as it was. *)
Theorem train_model_malformed_date (w : world) (r : txn) :
  plan w = [] ->
  r ∈ transactions (db w) ->
  strptime_toordinal (txn_date r) = None ->
  train_model w = (Raise ValueError, w).
Proof.
  intros Hp Hr Hbad.
  assert (Hk : txn_date r ∈ map fst (group_by_date (transactions (db w)))).
  { apply group_by_date_keys. apply list_elem_of_fmap. exists r. auto. }
  apply list_elem_of_fmap in Hk as (row & Hrow & Hin).
  unfold train_model. unfold bind at 1. rewrite train_model_query by exact Hp.
  unfold bind at 1.
  rewrite (for_each_toordinal_bad _ w row Hin) by (rewrite <- Hrow; exact Hbad).
  reflexivity.
Qed.

Lemma train_model_malformed_date_witness :
  let r := Txn 2 (7 # 1) "2024-02-30" "general" 42 in
  let w := World (Tables (<[42 := "user"]> ∅)
                         [Txn 1 (5 # 1) "2024-05-02" "general" 42; r] 2)
                 ∅ None "2024-05-03" [] (fun _ _ => false) [] [] [] [] in
  plan w = [] /\
  r ∈ transactions (db w) /\
  strptime_toordinal (txn_date r) = None /\
  train_model w = (Raise ValueError, w).
Proof.
  cbv zeta.
  set (r := Txn 2 (7 # 1) "2024-02-30" "general" 42).
  set (w := World (Tables (<[42 := "user"]> ∅)
                         [Txn 1 (5 # 1) "2024-05-02" "general" 42; r] 2)
                 ∅ None "2024-05-03" [] (fun _ _ => false) [] [] [] []).
  assert (Hp : plan w = []) by reflexivity.
  assert (Hr : r ∈ transactions (db w)).
  { unfold w. cbn [db transactions]. apply list_elem_of_further, list_elem_of_here. }
  assert (Hb : strptime_toordinal (txn_date r) = None) by (vm_compute; reflexivity).
  split; [exact Hp |]. split; [exact Hr |]. split; [exact Hb |].
  exact (train_model_malformed_date w r Hp Hr Hb).
Defined.

(** ** Reports *)



Lemma group_by_date_nil_inv (rows : list txn) : group_by_date rows = [] -> rows = [].
Proof.
  intros Hg. destruct rows as [| r rows]; [reflexivity |].
  assert (Hk : txn_date r ∈ map fst (group_by_date (r :: rows))).
  { apply group_by_date_keys. simpl. apply list_elem_of_here. }
  rewrite Hg in Hk. apply elem_of_nil in Hk. contradiction.
Qed.

Lemma send_graph_query (c : Z) (w : world) :
  plan w = [] ->
  with_Database (fun db => db_execute db (select_date_sums_of c)) w
  = (Ret (group_by_date (filter (fun r => txn_chat_id r = c) (transactions (db w)))), w).
Proof.
  intros Hp.
  exact (query_no_faults
           (fun t => group_by_date (filter (fun r => txn_chat_id r = c) (transactions t)))
           w Hp).
Qed.

Lemma current_figure_after_graph
    (w : world) (c : Z) (lines : list (list string * list Q)) :
  current_figure (set_files (files w ++ [(c, Graph lines)]) w) = lines.
Proof.
  unfold current_figure. simpl. rewrite fold_left_app. reflexivity.
Qed.

Lemma elem_of_series {A B} (l : list (A * B)) (a : A) (b : B) :
  (a, b) ∈ zip (map fst l) (map snd l) <-> (a, b) ∈ l.
Proof.
  induction l as [| [x y] l IH]; simpl.
  - reflexivity.
  - rewrite !elem_of_cons, IH. reflexivity.
Qed.

(** X19: without planned failures, [send_graph] answers a chat that has no
    row with "No transactions found." and sends no file.  A chat that has
    rows gets no reply and one picture: the lines the figure of the process
    already had, those of the graphs sent before to any chat, and after them
    one new line.  The dates of the new line are the distinct dates of the
    rows of the chat in ascending order, it has as many totals as dates, and
    the total at each date is what SUM returns for the amounts of the chat
    on that date; the new line stays in the figure. *)
Theorem send_graph_series (u : update) (w : world) :
  plan w = [] ->
  (filter (fun r => txn_chat_id r = message_chat_id u) (transactions (db w)) = [] ->
   send_graph u w
   = (Ret tt,
      set_replies (replies w ++ [(message_chat_id u, Plain "No transactions found.")])
                  w)) /\
  (filter (fun r => txn_chat_id r = message_chat_id u) (transactions (db w)) <> [] ->
   exists dates totals w',
     send_graph u w = (Ret tt, w') /\
     w' = set_files (files w ++
                     [(message_chat_id u,
                       Graph (current_figure w ++ [(dates, totals)]))]) w /\
     current_figure w' = current_figure w ++ [(dates, totals)] /\
     StronglySorted date_lt dates /\
     length totals = length dates /\
     (forall d, d ∈ dates <->
                exists r, r ∈ transactions (db w) /\
                          txn_chat_id r = message_chat_id u /\ txn_date r = d) /\
     (forall d total,
        (d, total) ∈ zip dates totals ->
        sql_sum (amounts_on d
                   (filter (fun r => txn_chat_id r = message_chat_id u)
                           (transactions (db w))))
        = Some total)).
Proof.
  intros Hp.
  set (rows := filter (fun r => txn_chat_id r = message_chat_id u)
                      (transactions (db w))).
  split.
  - intros Hnone. unfold send_graph. cbv zeta. unfold bind at 1.
    rewrite send_graph_query by exact Hp. fold rows. rewrite Hnone. reflexivity.
  - intros Hsome.
    exists (map fst (group_by_date rows)), (map snd (group_by_date rows)).
    eexists.
    split; [| split; [reflexivity | split; [| split; [| split; [| split]]]]].
    + unfold send_graph. cbv zeta. unfold bind at 1.
      rewrite send_graph_query by exact Hp. fold rows.
      destruct (group_by_date rows) as [| p series] eqn:Hg; [| reflexivity].
      apply group_by_date_nil_inv in Hg. contradiction.
    + apply current_figure_after_graph.
    + apply group_by_date_sorted.
    + rewrite !length_map. reflexivity.
    + intros d. rewrite group_by_date_keys, list_elem_of_fmap. split.
      * intros (r & -> & Hr). unfold rows in Hr.
        apply list_elem_of_filter in Hr as [Hc Hr]. exists r. auto.
      * intros (r & Hr & Hc & <-). exists r. split; [reflexivity |].
        unfold rows. apply list_elem_of_filter. auto.
    + intros d total Hin.
      apply (proj1 (elem_of_series (group_by_date rows) d total)) in Hin.
      rewrite group_by_date_is_sum_Q in Hin.
      apply group_by_date_with_spec in Hin as [Hne ->].
      rewrite values_on_date_amount in *.
      apply sql_sum_aggregate, Hne.
Qed.

(** X19 at the graph of chat 2 asked after the graph of chat 1: the picture
    sent to chat 2 shows the line of chat 1 and then its own. *)
Lemma send_graph_series_witness :
  let w0 := run_ops [AddTransaction 1 (5 # 1); AddTransaction 2 (10 # 1)]
                    (fresh "2024-05-01") in
  let w := snd (send_graph (Update 1 "/graph") w0) in
  let u := Update 2 "/graph" in
  plan w = [] /\
  filter (fun r => txn_chat_id r = message_chat_id u) (transactions (db w)) <> [] /\
  current_figure w = [(["2024-05-01"], [(0 + (5 # 1))%Q])] /\
  exists dates totals w',
    send_graph u w = (Ret tt, w') /\
    dates = ["2024-05-01"] /\
    totals = [(0 + (10 # 1))%Q] /\
    files w'
    = files w ++ [(2, Graph [(["2024-05-01"], [(0 + (5 # 1))%Q]);
                             (["2024-05-01"], [(0 + (10 # 1))%Q])])] /\
    (forall d total,
       (d, total) ∈ zip dates totals ->
       sql_sum (amounts_on d
                  (filter (fun r => txn_chat_id r = message_chat_id u)
                          (transactions (db w))))
       = Some total).
Proof.
  cbv zeta.
  set (w := snd (send_graph (Update 1 "/graph")
                   (run_ops [AddTransaction 1 (5 # 1); AddTransaction 2 (10 # 1)]
                            (fresh "2024-05-01")))).
  assert (Hp : plan w = []) by reflexivity.
  assert (Hrows : filter (fun r => txn_chat_id r = message_chat_id (Update 2 "/graph"))
                         (transactions (db w)) <> [])
    by (vm_compute; discriminate).
  assert (Hfig : current_figure w = [(["2024-05-01"], [(0 + (5 # 1))%Q])])
    by (vm_compute; reflexivity).
  split; [exact Hp |]. split; [exact Hrows |]. split; [exact Hfig |].
  destruct (send_graph_series (Update 2 "/graph") w Hp) as [_ Hsome].
  destruct (Hsome Hrows) as (dates & totals & w' & Hrun & Hw' & _ & _ & _ & _ & Hsum).
  assert (Hval : (Ret tt, w')
                 = (Ret tt,
                    set_files (files w ++
                               [(2, Graph [(["2024-05-01"], [(0 + (5 # 1))%Q]);
                                           (["2024-05-01"], [(0 + (10 # 1))%Q])])])
                              w))
    by (rewrite <- Hrun; vm_compute; reflexivity).
  injection Hval as Hval.
  assert (Hline : dates = ["2024-05-01"] /\ totals = [(0 + (10 # 1))%Q]).
  { rewrite Hw', Hfig in Hval.
    apply (f_equal files) in Hval. simpl in Hval.
    apply app_inv_head in Hval. injection Hval as Hd Ht. split; assumption. }
  destruct Hline as [Hd Ht].
  exists dates, totals, w'.
  split; [exact Hrun |]. split; [exact Hd |]. split; [exact Ht |].
  split; [rewrite Hval; reflexivity | exact Hsum].
Defined.

(** ** Rows and their owners *)

Lemma insert_or_ignore_user_keeps (chat_id k : Z) (role : string) (t : tables) :
  is_Some (users t !! k) ->
  is_Some (users (fst (insert_or_ignore_user chat_id role t)) !! k).
Proof.
  intros Hk. rewrite insert_or_ignore_user_users.
  destruct (users t !! chat_id) as [r |] eqn:Hl; [exact Hk |].
  destruct (decide (chat_id = k)) as [-> | Hne].
  - rewrite lookup_insert_eq. eauto.
  - rewrite lookup_insert_ne by exact Hne. exact Hk.
Qed.

Lemma add_transaction_run (c : Z) (a : Q) (w : world) :
  plan w = [] ->
  exists total,
    add_transaction c a w
    = (Ret total,
       let w1 := set_db (fst (insert_or_ignore_user c "user" (db w))) w in
       set_cache (<[c := total]> (user_totals_cache w1))
         (set_db (fst (insert_transaction a (today w1) "general" c (db w1))) w1)).
Proof.
  intros Hp. unfold add_transaction. unfold bind at 1.
  rewrite add_user_no_faults by exact Hp.
  set (w1 := set_db (fst (insert_or_ignore_user c "user" (db w))) w).
  unfold bind at 1. rewrite save_transaction_run by exact Hp. cbv zeta.
  set (total := match user_totals_cache w1 !! c with
                | Some t => t
                | None => sum_for_user c
                            (db (set_db (fst (insert_transaction a (today w1)
                                   "general" c (db w1))) w1))
                end).
  exists total. apply get_total_hit. apply lookup_insert_eq.
Qed.

Lemma run_op_owners (op : ledger_op) (w : world) :
  plan w = [] ->
  owners_known w ->
  plan (run_op op w) = [] /\ owners_known (run_op op w).
Proof.
  intros Hp Hown. destruct op as [c a | c | c | | c |]; simpl run_op.
  - destruct (add_transaction_run c a w Hp) as [total ->]. cbv zeta. simpl snd.
    split; [exact Hp |].
    intros r Hr. simpl in Hr |- *.
    rewrite insert_or_ignore_user_transactions in Hr.
    apply elem_of_app in Hr as [Hr | Hr].
    + apply insert_or_ignore_user_keeps. exact (Hown r Hr).
    + apply list_elem_of_singleton in Hr as ->. simpl.
      apply insert_or_ignore_user_present.
  - destruct (user_totals_cache w !! c) as [total |] eqn:Hl.
    + rewrite (get_total_hit _ _ _ Hl). split; assumption.
    + rewrite get_total_miss by assumption. split; [exact Hp | exact Hown].
  - rewrite reset_transactions_run by exact Hp. split; [exact Hp |].
    intros r Hr. simpl in Hr |- *.
    apply list_elem_of_filter in Hr as [_ Hr]. exact (Hown r Hr).
  - split; [exact Hp | exact Hown].
  - unfold list_transactions.
    change (with_Database (fun db => db_execute db (select_transactions c)) w)
      with (with_Database (fun db => db_execute db
              (fun t => (t, snd (select_transactions c t)))) w).
    rewrite (query_no_faults (fun t => snd (select_transactions c t)) w Hp).
    split; assumption.
  - unfold date_aggregates. rewrite train_model_query by exact Hp.
    split; assumption.
Qed.

Lemma run_ops_owners (ops : list ledger_op) (w : world) :
  plan w = [] ->
  owners_known w ->
  plan (run_ops ops w) = [] /\ owners_known (run_ops ops w).
Proof.
  revert w. induction ops as [| op ops IH]; intros w Hp Hown.
  - split; assumption.
  - destruct (run_op_owners op w Hp Hown) as [Hp1 Hown1].
    exact (IH (run_op op w) Hp1 Hown1).
Qed.

(** X20: when no storage failure occurs, every row of the transactions
    table belongs to a chat that is in the users table.  This holds in every
    state reached by the ledger operations from a fresh process, which plans
    no failure: the write path ensures the user before it saves the row, and
    no operation removes a user. *)
Theorem reachable_rows_have_users (w : world) :
  reachable w -> owners_known w.
Proof.
  intros (date & ops & ->).
  apply run_ops_owners; [reflexivity |].
  intros r Hr. apply elem_of_nil in Hr. contradiction.
Qed.

Lemma reachable_rows_have_users_witness :
  let w := run_ops [AddTransaction 1 (5 # 1); ResetForUser 1;
                    AddTransaction 2 (10 # 1); ClearCache; GetTotal 2]
                   (fresh "2024-05-01") in
  reachable w /\ owners_known w.
Proof.
  cbv zeta.
  assert (Hr : reachable (run_ops [AddTransaction 1 (5 # 1); ResetForUser 1;
                                   AddTransaction 2 (10 # 1); ClearCache; GetTotal 2]
                                  (fresh "2024-05-01"))).
  { exists "2024-05-01", [AddTransaction 1 (5 # 1); ResetForUser 1;
                          AddTransaction 2 (10 # 1); ClearCache; GetTotal 2].
    reflexivity. }
  split; [exact Hr |].
  exact (reachable_rows_have_users _ Hr).
Defined.

(** With a storage failure the rows may lose their owners: the commit that
    adds the user fails and is only logged, and the row is saved all the
    same. *)
Example failed_commit_leaves_row_without_user :
  let w := set_plan [commit_fails_only] (fresh "2024-05-01") in
  let w' := snd (add_transaction 42 (100 # 1) w) in
  users (db w') !! 42 = None /\
  transactions (db w') = [Txn 1 (100 # 1) "2024-05-01" "general" 42] /\
  ~ owners_known w'.
Proof.
  cbv zeta. split; [vm_compute; reflexivity |]. split; [vm_compute; reflexivity |].
  intros Hown.
  destruct (Hown (Txn 1 (100 # 1) "2024-05-01" "general" 42)) as [role Hrole].
  - vm_compute. apply list_elem_of_here.
  - vm_compute in Hrole. discriminate Hrole.
Qed.

(** ** A connection that cannot be opened *)

(** X21: when the connection of its first database block cannot be opened,
    [handle_message] ends with AttributeError before anything else happens:
    the failure is logged, no reply is sent, and the tables and the cache are
    as they were, whatever the text of the message. *)
Theorem handle_message_connect_failure
    (u : update) (execute commit : bool) (rest : list faults) (w : world) :
  exists w',
    handle_message u (set_plan (Faults true execute commit :: rest) w)
    = (Raise AttributeError, w') /\
    errors w' = errors w ++ ["Error connecting to database"] /\
    replies w' = replies w /\
    db w' = db w /\
    user_totals_cache w' = user_totals_cache w /\
    plan w' = rest.
Proof.
  unfold handle_message, add_user. run_block.
  eexists. repeat split; reflexivity.
Qed.

(** ** The texts taken for numbers *)

Lemma span_digits_exact (ds rest : string) :
  string_forall is_digit ds = true ->
  fst (span_digits rest) = "" ->
  span_digits (ds +:+ rest) = (ds, rest).
Proof.
  intros Hds Hrest. induction ds as [| c ds IH].
  - change ("" +:+ rest) with rest.
    pose proof (span_digits_app rest) as Happ. rewrite Hrest in Happ.
    destruct (span_digits rest) as [a b]. simpl in *.
    change ("" +:+ b) with b in Happ. congruence.
  - simpl in Hds. apply andb_prop in Hds as [Hc Hds].
    change (String c ds +:+ rest) with (String c (ds +:+ rest)).
    simpl. rewrite Hc, (IH Hds). reflexivity.
Qed.

Lemma re_match_number_unsigned (ds fs : string) :
  ds <> "" -> string_forall is_digit ds = true ->
  string_forall is_digit fs = true ->
  re_match_number ds = Some ds /\
  (fs <> "" -> re_match_number (ds +:+ "." +:+ fs) = Some (ds +:+ "." +:+ fs)).
Proof.
  intros Hne Hds Hfs. destruct ds as [| c ds]; [congruence |].
  pose proof Hds as Hall. simpl in Hds. apply andb_prop in Hds as [Hc _].
  split.
  - unfold re_match_number. rewrite (opt_sign_digit c ds Hc).
    rewrite <- (append_empty_r (String c ds)) at 1.
    rewrite (span_digits_exact (String c ds) "" Hall eq_refl). reflexivity.
  - intros Hf. unfold re_match_number.
    change (String c ds +:+ "." +:+ fs) with (String c (ds +:+ "." +:+ fs)).
    rewrite (opt_sign_digit c _ Hc).
    change (String c (ds +:+ "." +:+ fs)) with (String c ds +:+ String "." fs).
    rewrite (span_digits_exact (String c ds) (String "." fs) Hall eq_refl).
    rewrite <- (append_empty_r fs) at 1.
    rewrite (span_digits_exact fs "" Hfs eq_refl).
    destruct fs as [| f fs]; [congruence |]. reflexivity.
Qed.

Lemma re_match_number_signed (sign : ascii) (s : string) :
  sign = "+"%char \/ sign = "-"%char ->
  re_match_number (String sign s)
  = match re_match_number s with
    | Some g => if is_digit (match s with String c _ => c | _ => sign end)
                then Some (String sign g) else None
    | None => None
    end.
Proof.
  intros Hs. unfold re_match_number at 1.
  assert (Ho : opt_sign (String sign s) = (String sign "", s))
    by (destruct Hs as [-> | ->]; reflexivity).
  rewrite Ho. destruct s as [| c r].
  - reflexivity.
  - destruct (is_digit c) eqn:Hc.
    + unfold re_match_number. rewrite (opt_sign_digit c r Hc).
      destruct (span_digits (String c r)) as [ds s2].
      destruct ds as [| d ds]; [reflexivity |].
      destruct s2 as [| x s3].
      * reflexivity.
      * destruct x as [[] [] [] [] [] [] [] []];
          try (destruct (at_end (String _ s3)); reflexivity).
        destruct (span_digits s3) as [fs s4]. destruct fs as [| f fs]; [reflexivity |].
        destruct (at_end s4); reflexivity.
    + assert (Hsp : span_digits (String c r) = ("", String c r))
        by (simpl; rewrite Hc; reflexivity).
      rewrite Hsp.
      destruct (re_match_number (String c r)); reflexivity.
Qed.

(** X22: the pattern of [handle_message] accepts every text made of an
    optional sign, one or more digits and, optionally, a point followed by
    one or more digits, and the matched group is the whole text. *)
Theorem re_match_number_accepts (ds fs : string) :
  ds <> "" -> string_forall is_digit ds = true ->
  fs <> "" -> string_forall is_digit fs = true ->
  re_match_number ds = Some ds /\
  re_match_number ("+" +:+ ds) = Some ("+" +:+ ds) /\
  re_match_number ("-" +:+ ds) = Some ("-" +:+ ds) /\
  re_match_number (ds +:+ "." +:+ fs) = Some (ds +:+ "." +:+ fs) /\
  re_match_number ("+" +:+ ds +:+ "." +:+ fs) = Some ("+" +:+ ds +:+ "." +:+ fs) /\
  re_match_number ("-" +:+ ds +:+ "." +:+ fs) = Some ("-" +:+ ds +:+ "." +:+ fs).
Proof.
  intros Hne Hds Hf Hfs.
  destruct (re_match_number_unsigned ds fs Hne Hds Hfs) as [Hint Hfrac].
  specialize (Hfrac Hf).
  destruct ds as [| c ds]; [congruence |].
  simpl in Hds. apply andb_prop in Hds as [Hc _].
  split; [exact Hint |].
  change ("+" +:+ String c ds) with (String "+" (String c ds)).
  change ("-" +:+ String c ds) with (String "-" (String c ds)).
  change ("+" +:+ String c ds +:+ "." +:+ fs)
    with (String "+" (String c ds +:+ "." +:+ fs)).
  change ("-" +:+ String c ds +:+ "." +:+ fs)
    with (String "-" (String c ds +:+ "." +:+ fs)).
  rewrite (re_match_number_signed "+" (String c ds)) by auto.
  rewrite (re_match_number_signed "-" (String c ds)) by auto.
  rewrite (re_match_number_signed "+" (String c ds +:+ "." +:+ fs)) by auto.
  rewrite (re_match_number_signed "-" (String c ds +:+ "." +:+ fs)) by auto.
  rewrite Hint, Hfrac.
  change (String c ds +:+ "." +:+ fs) with (String c (ds +:+ "." +:+ fs)).
  cbv iota. rewrite Hc. repeat split; reflexivity.
Qed.

Lemma re_match_number_accepts_witness :
  "12" <> "" /\ string_forall is_digit "12" = true /\
  "50" <> "" /\ string_forall is_digit "50" = true /\
  re_match_number "12" = Some "12" /\
  re_match_number ("+" +:+ "12") = Some ("+" +:+ "12") /\
  re_match_number ("-" +:+ "12") = Some ("-" +:+ "12") /\
  re_match_number ("12" +:+ "." +:+ "50") = Some ("12" +:+ "." +:+ "50") /\
  re_match_number ("+" +:+ "12" +:+ "." +:+ "50") = Some ("+" +:+ "12" +:+ "." +:+ "50") /\
  re_match_number ("-" +:+ "12" +:+ "." +:+ "50") = Some ("-" +:+ "12" +:+ "." +:+ "50").
Proof.
  assert (H1 : "12" <> "") by discriminate.
  assert (H2 : string_forall is_digit "12" = true) by reflexivity.
  assert (H3 : "50" <> "") by discriminate.
  assert (H4 : string_forall is_digit "50" = true) by reflexivity.
  split; [exact H1 |]. split; [exact H2 |]. split; [exact H3 |]. split; [exact H4 |].
  exact (re_match_number_accepts "12" "50" H1 H2 H3 H4).
Defined.
